(** * KG-PBO: the data pipeline of [src/utils.py], embedded and verified

    The file follows [src/utils.py] function by function.  Python code that
    can raise is embedded in an error monad, code that touches the process'
    random generator, the standard output or the model libraries threads that
    state explicitly.  Tensors are a shape together with the row-major list
    of their entries, which is what [reshape], [cat], indexing and [argmax]
    act on. *)

From Stdlib Require Import String ZArith Bool Arith Lia List.
From Stdlib Require Import Permutation Sorted.
Import ListNotations.

Set Implicit Arguments.
Open Scope string_scope.
Open Scope list_scope.
Open Scope nat_scope.

(** ** Python run time: exceptions and the two monads *)

Module Py.

(** The exceptions the embedded code can raise. *)
Inductive exn : Type :=
| UnboundLocalError (var : string) (* a local read before any assignment *)
| IndexError                       (* index or dimension out of range *)
| RuntimeError                     (* raised by the array engine *)
| ValueError.                      (* raised by the distribution library *)

Inductive result (A : Type) : Type :=
| Ok (a : A)
| Err (e : exn).
Arguments Ok {A} a.
Arguments Err {A} e.

Definition is_err {A} (r : result A) : bool :=
  match r with Ok _ => false | Err _ => true end.

(** A computation over a state [S] that may raise; the state reached when
    the exception is raised is kept, as in Python. *)
Definition M (S A : Type) : Type := S -> result A * S.

Class Monad (m : Type -> Type) : Type :=
  { ret : forall {A}, A -> m A;
    bind : forall {A B}, m A -> (A -> m B) -> m B }.

#[global] Instance Monad_result : Monad result :=
  { ret := fun A a => Ok a;
    bind := fun A B c k => match c with Ok a => k a | Err e => Err e end }.

#[global] Instance Monad_M (S : Type) : Monad (M S) :=
  { ret := fun A a s => (Ok a, s);
    bind := fun A B c k s =>
              match c s with
              | (Ok a, s') => k a s'
              | (Err e, s') => (Err e, s')
              end }.

Definition raise {S A} (e : exn) : M S A := fun s => (Err e, s).
Definition lift {S A} (r : result A) : M S A := fun s => (r, s).
Definition get {S} : M S S := fun s => (Ok s, s).
Definition put {S} (s : S) : M S unit := fun _ => (Ok tt, s).

(** A local variable is bound or not; reading an unbound one raises. *)
Definition read_local {S A} (name : string) (v : option A) : M S A :=
  match v with
  | Some a => ret a
  | None => raise (UnboundLocalError name)
  end.

(** [for x in l: acc = body acc x], stopping at the first exception. *)
Fixpoint for_each {m} `{Monad m} {A B} (l : list B) (body : A -> B -> m A)
  (acc : A) : m A :=
  match l with
  | [] => ret acc
  | x :: l' => bind (body acc x) (for_each l' body)
  end.

(** [range(n)] for a natural number [n]. *)
Definition range (n : nat) : list nat := seq 0 n.

End Py.
Import Py.

Declare Scope py_scope.
Delimit Scope py_scope with py.
Notation "x <- c ;; k" := (bind c (fun x => k))
  (at level 61, c at next level, right associativity) : py_scope.
Notation "' pat <- c ;; k" := (bind c (fun x => match x with pat => k end))
  (at level 61, pat pattern, c at next level, right associativity) : py_scope.
Notation "c ;;; k" := (bind c (fun _ => k))
  (at level 61, right associativity) : py_scope.
Open Scope py_scope.

(** ** The array engine *)

Module Torch.

(** A tensor: its shape, its entries in row-major order and whether
    gradients are tracked through it. *)
Record tensor (A : Type) : Type := mkTensor
  { shape : list nat;
    data : list A;
    requires_grad : bool }.

Definition numel (s : list nat) : nat := fold_right Nat.mul 1 s.

Definition tensor_wf {A} (t : tensor A) : Prop :=
  length (data t) = numel (shape t).

Fixpoint shape_eqb (s1 s2 : list nat) : bool :=
  match s1, s2 with
  | [], [] => true
  | a :: s1', b :: s2' => (a =? b) && shape_eqb s1' s2'
  | _, _ => false
  end.

(** The [k]-th block of [len] consecutive entries. *)
Definition block {A} (len k : nat) (l : list A) : list A :=
  firstn len (skipn (k * len) l).

(** [t.reshape(s)]: same entries, new shape; the sizes must agree. *)
Definition reshape {A} (t : tensor A) (s : list nat) : result (tensor A) :=
  if numel s =? numel (shape t)
  then Ok (mkTensor s (data t) (requires_grad t))
  else Err RuntimeError.

(** The [k]-th sub-tensor of shape [inner] of [t]. *)
Definition slab {A} (t : tensor A) (inner : list nat) (k : nat) : tensor A :=
  mkTensor inner (block (numel inner) k (data t)) (requires_grad t).

(** [t[i, j, :]] on a tensor of at least three dimensions. *)
Definition select2 {A} (t : tensor A) (i j : nat) : result (tensor A) :=
  match shape t with
  | n :: b :: d :: rest =>
      if (i <? n) && (j <? b)
      then Ok (slab t (d :: rest) (i * b + j))
      else Err IndexError
  | _ => Err IndexError
  end.

(** [t.unsqueeze(0)]. *)
Definition unsqueeze0 {A} (t : tensor A) : tensor A :=
  mkTensor (1 :: shape t) (data t) (requires_grad t).

(** [t.squeeze()]: drop every dimension of size one. *)
Definition squeeze {A} (t : tensor A) : tensor A :=
  mkTensor (filter (fun n => negb (n =? 1)) (shape t)) (data t)
    (requires_grad t).

(** [t.detach()]. *)
Definition detach {A} (t : tensor A) : tensor A :=
  mkTensor (shape t) (data t) false.

(** [torch.tensor([a, b])] for two integers. *)
Definition torch_tensor2 (a b : Z) : tensor Z := mkTensor [2] [a; b] false.

Definition dim0 {A} (t : tensor A) : nat := hd 0 (shape t).

(** [torch.cat(ts, dim=0)]: raises on the empty list, on a tensor without
    dimensions and when the trailing dimensions differ. *)
Definition torch_cat {A} (ts : list (tensor A)) : result (tensor A) :=
  match ts with
  | [] => Err RuntimeError
  | t0 :: _ =>
      match shape t0 with
      | [] => Err RuntimeError
      | _ :: tl =>
          if forallb (fun t => match shape t with
                               | [] => false
                               | _ :: tl' => shape_eqb tl tl'
                               end) ts
          then Ok (mkTensor (list_sum (map dim0 ts) :: tl)
                     (concat (map (@data A) ts))
                     (existsb (@requires_grad A) ts))
          else Err RuntimeError
      end
  end.

(** [t[idx]] for an integer tensor [idx]: the slabs of [t] along its first
    dimension that [idx] names, in the shape of [idx]; a negative index
    counts from the end. *)
Definition index_select0 {A} (t : tensor A) (idx : tensor Z)
  : result (tensor A) :=
  match shape t with
  | [] => Err IndexError
  | n :: rest =>
      if forallb (fun k => (- Z.of_nat n <=? k)%Z && (k <? Z.of_nat n)%Z)
           (data idx)
      then Ok (mkTensor (shape idx ++ rest)
                 (flat_map
                    (fun k => block (numel rest)
                                (Z.to_nat (k mod Z.of_nat n)) (data t))
                    (data idx))
                 (requires_grad t))
      else Err IndexError
  end.

(** Entries of floating-point tensors.  [float_ltb] is the comparison the
    engine's max reductions and sorts use (it ranks a NaN above every
    number), a strict weak order; [float_lit] reads a decimal literal. *)
Class Float (elt : Type) : Type :=
  { float_ltb : elt -> elt -> bool;
    float_add : elt -> elt -> elt;
    float_lit : Z -> positive -> elt;
    float_ltb_asym :
      forall a b, float_ltb a b = true -> float_ltb b a = false;
    float_ltb_cotrans :
      forall a b c, float_ltb a b = true ->
                    float_ltb a c = true \/ float_ltb c b = true }.

(** [n] draws in a row from a generator that steps by [next]. *)
Fixpoint draw_from {S A : Type} (next : S -> A * S) (n : nat) (g : S)
  : list A * S :=
  match n with
  | 0 => ([], g)
  | S n' =>
      let (x, g1) := next g in
      let (xs, g2) := draw_from next n' g1 in
      (x :: xs, g2)
  end.

(** The process-wide default random generator, the one that
    [torch.random.get_rng_state] and [torch.random.set_rng_state] read and
    write and that [torch.rand] draws from: [seed_state s] is the state that
    [torch.manual_seed(s)] installs, [next_uniform] draws one number of
    [0, 1) and steps the state.  [torch.manual_seed] also reseeds the
    generators of accelerator devices; [utils.py] never draws from those and
    they are left out.

    [allocatable size] tells whether the engine can allocate a tensor of the
    non-negative sizes [size]: [torch.rand] raises when it cannot, as it
    does when the storage size overflows.  Which sizes these are depends on
    the machine.  [draws_move] is the one law of the generator: filling an
    allocatable tensor that has an entry never brings the generator back to
    the state it started from (such a tensor is far shorter than the
    generator's period). *)
Class Generator (elt : Type) : Type :=
  { gen_state : Type;
    seed_state : Z -> gen_state;
    next_uniform : gen_state -> elt * gen_state;
    allocatable : list Z -> bool;
    draws_move :
      forall (size : list Z) (g : gen_state),
        allocatable size = true ->
        numel (map Z.to_nat size) <> 0 ->
        snd (draw_from next_uniform (numel (map Z.to_nat size)) g) <> g }.

Section Engine.

Context {elt : Type}.

Section Random.

Context {G : Generator elt}.

(** [torch.random.get_rng_state()] and [torch.random.set_rng_state]. *)
Definition get_rng_state : M gen_state gen_state := get.
Definition set_rng_state (s : gen_state) : M gen_state unit := put s.

(** [torch.manual_seed(seed)]: the seed must fit in 64 bits. *)
Definition manual_seed (seed : Z) : M gen_state unit :=
  if ((- 2 ^ 63 <=? seed) && (seed <=? 2 ^ 64 - 1))%Z
  then put (seed_state seed)
  else raise RuntimeError.

Fixpoint draw (n : nat) (g : gen_state) : list elt * gen_state :=
  match n with
  | 0 => ([], g)
  | S n' =>
      let (x, g1) := next_uniform g in
      let (xs, g2) := draw n' g1 in
      (x :: xs, g2)
  end.

(** [torch.rand(size)]: a negative dimension raises, and so do sizes the
    engine cannot allocate; both before anything is drawn. *)
Definition torch_rand (size : list Z) : M gen_state (tensor elt) :=
  fun g =>
    if forallb (fun n => (0 <=? n)%Z) size
    then if allocatable size
         then let s := map Z.to_nat size in
              let (xs, g') := draw (numel s) g in
              (Ok (mkTensor s xs false), g')
         else (Err RuntimeError, g)
    else (Err RuntimeError, g).

End Random.

Context {F : Float elt}.

(** [a + b] for two tensors of one shape. *)
Definition tensor_add (a b : tensor elt) : result (tensor elt) :=
  if shape_eqb (shape a) (shape b)
  then Ok (mkTensor (shape a)
             (map (fun p => float_add (fst p) (snd p))
                (combine (data a) (data b)))
             (requires_grad a || requires_grad b))
  else Err RuntimeError.

(** Index of the first greatest entry, scanning from the left:
    [best] at [best_i] is the greatest entry seen before position [i]. *)
Fixpoint argmax_from (best_i : nat) (best : elt) (i : nat) (l : list elt)
  : nat :=
  match l with
  | [] => best_i
  | x :: l' =>
      if float_ltb best x
      then argmax_from i x (S i) l'
      else argmax_from best_i best (S i) l'
  end.

Definition argmax_list (l : list elt) : nat :=
  match l with
  | [] => 0
  | x :: l' => argmax_from 0 x 1 l'
  end.

(** [torch.argmax(t, dim=-1)]: one index per row of the last dimension,
    the first one among equal greatest entries; an empty last dimension
    raises, a tensor without dimensions gives index 0. *)
Definition torch_argmax (t : tensor elt) : result (tensor Z) :=
  match rev (shape t) with
  | [] => Ok (mkTensor [] [0%Z] false)
  | b :: outer =>
      if b =? 0 then Err IndexError
      else Ok (mkTensor (rev outer)
                 (map (fun k => Z.of_nat (argmax_list (block b k (data t))))
                    (range (numel (rev outer))))
                 false)
  end.

(** Insertion of an entry with its position into a list in descending
    order, after the entries that are not smaller. *)
Fixpoint insert_desc (x : elt * nat) (l : list (elt * nat))
  : list (elt * nat) :=
  match l with
  | [] => [x]
  | y :: l' =>
      if float_ltb (fst x) (fst y)
      then y :: insert_desc x l'
      else x :: y :: l'
  end.

Definition sort_desc (l : list elt) : list (elt * nat) :=
  fold_right insert_desc [] (combine l (seq 0 (length l))).

(** [torch.sort(t, descending=True)]: values and indices, row by row
    along the last dimension.  The engine leaves the order of equal
    entries open; the model keeps them in their original order. *)
Definition torch_sort_desc (t : tensor elt) : tensor elt * tensor Z :=
  let rows :=
    match rev (shape t) with
    | [] => [sort_desc (data t)]
    | b :: outer =>
        map (fun k => sort_desc (block b k (data t)))
          (range (numel (rev outer)))
    end in
  (mkTensor (shape t) (concat (map (map fst) rows)) (requires_grad t),
   mkTensor (shape t)
     (concat (map (map (fun p => Z.of_nat (snd p))) rows)) false).

End Engine.

End Torch.
Import Torch.

(** ** [src/utils.py] *)

Module Utils.

Section Encoder.

Context {elt : Type}.

(** Loop state of [training_data_for_pairwise_gp]: the two Python lists. *)
Definition encoder_lists : Type := (list (tensor elt) * list (tensor Z))%type.

(** Body of the inner [for j in range(batch_size)].  [ri] is
    [responses[i]] and [best_item_id] the winner's row. *)
Definition encoder_item (queries : tensor elt) (batch_size i : nat)
  (ri best_item_id : Z) (acc : encoder_lists) (j : nat)
  : result encoder_lists :=
  let '(datapoints, comparisons) := acc in
  p <- select2 queries i j ;;
  let datapoints := datapoints ++ [unsqueeze0 p] in
  if negb (Z.of_nat j =? ri)%Z
  then ret (datapoints,
            comparisons ++
              [unsqueeze0
                 (torch_tensor2 best_item_id (Z.of_nat (batch_size * i + j)))])
  else ret (datapoints, comparisons).

(** Body of the outer [for i in range(num_queries)]. *)
Definition encoder_query (queries : tensor elt) (responses : list Z)
  (batch_size : nat) (acc : encoder_lists) (i : nat)
  : result encoder_lists :=
  match nth_error responses i with
  | None => Err IndexError
  | Some ri =>
      let best_item_id := (Z.of_nat (batch_size * i) + ri)%Z in
      for_each (range batch_size)
        (encoder_item queries batch_size i ri best_item_id) acc
  end.

(** [training_data_for_pairwise_gp(queries, responses)].  [responses] is
    the one-dimensional integer tensor of the data model, given by its
    entries; row indices are integers of the array engine, far from the
    ends of its 64-bit range, so that their arithmetic is exact. *)
Definition training_data_for_pairwise_gp (queries : tensor elt)
  (responses : list Z) : result (tensor elt * tensor Z) :=
  match shape queries with
  | num_queries :: batch_size :: _ =>
      '(datapoints, comparisons) <-
        for_each (range num_queries)
          (encoder_query queries responses batch_size) ([], []) ;;
      datapoints <- torch_cat datapoints ;;
      comparisons <- torch_cat comparisons ;;
      ret (datapoints, comparisons)
  | _ => Err IndexError
  end.

End Encoder.

(** *** Query sampler *)

Section Sampler.

Context {elt : Type} {G : Generator elt}.

(** [generate_random_queries(num_queries, batch_size, input_dim, seed)];
    [seed = None] is the default [seed=None]. *)
Definition generate_random_queries (num_queries batch_size input_dim : Z)
  (seed : option Z) : M gen_state (tensor elt) :=
  match seed with
  | Some seed =>
      old_state <- get_rng_state ;;
      manual_seed seed ;;;
      queries <- torch_rand [num_queries; batch_size; input_dim] ;;
      set_rng_state old_state ;;;
      ret queries
  | None =>
      queries <- torch_rand [num_queries; batch_size; input_dim] ;;
      ret queries
  end.

End Sampler.

(** *** Objective evaluator *)

Section Evaluator.

Context {elt : Type}.

(** [get_obj_vals(queries, obj_func)]; the objective is any function from
    tensors to tensors that may raise. *)
Definition get_obj_vals (queries : tensor elt)
  (obj_func : tensor elt -> result (tensor elt)) : result (tensor elt) :=
  match shape queries with
  | n :: b :: d :: _ =>
      queries_2d <- reshape queries [n * b; d] ;;
      obj_vals <- obj_func queries_2d ;;
      obj_vals <- reshape obj_vals [n; b] ;;
      ret obj_vals
  | _ => Err IndexError
  end.

(** [get_obj_vals] once more, for an objective that is any Python callable:
    it may act on a state, as an objective with observation noise does when
    it draws from the process-wide generator.  The body is the same, with
    the objective's effect threaded through. *)
Definition get_obj_vals_effectful {S : Type} (queries : tensor elt)
  (obj_func : tensor elt -> M S (tensor elt)) : M S (tensor elt) :=
  match shape queries with
  | n :: b :: d :: _ =>
      queries_2d <- lift (reshape queries [n * b; d]) ;;
      obj_vals <- obj_func queries_2d ;;
      obj_vals <- lift (reshape obj_vals [n; b]) ;;
      ret obj_vals
  | _ => raise IndexError
  end.

(** An objective that acts on no state. *)
Definition pure_objective {S : Type}
  (obj_func : tensor elt -> result (tensor elt))
  : tensor elt -> M S (tensor elt) :=
  fun t => lift (obj_func t).

End Evaluator.

(** *** Response simulator *)

(** The distribution library: [Normal(loc, scale).sample(sample_shape)] and
    [Gumbel(loc, scale).sample(sample_shape)] draw from the process-wide
    generator and may reject their parameters. *)
Class Distributions (elt : Type) {G : Generator elt} : Type :=
  { Normal_sample : elt -> elt -> list nat -> M gen_state (tensor elt);
    Gumbel_sample : elt -> elt -> list nat -> M gen_state (tensor elt) }.
Arguments Distributions elt {G}.

Section Simulator.

Context {elt : Type} {F : Float elt} {G : Generator elt}
  {D : Distributions elt}.

(** [corrupt_obj_vals(obj_vals, noise_type, noise_level)]: the local
    [corrupted_obj_vals] is bound in three branches only and read by the
    final [return]. *)
Definition corrupt_obj_vals (obj_vals : tensor elt) (noise_type : string)
  (noise_level : elt) : M gen_state (tensor elt) :=
  corrupted_obj_vals <-
    (if String.eqb noise_type "noiseless" then
       ret (Some obj_vals)
     else if String.eqb noise_type "probit" then
       noise <- Normal_sample (float_lit 0 1) noise_level (shape obj_vals) ;;
       s <- lift (tensor_add obj_vals noise) ;;
       ret (Some s)
     else if String.eqb noise_type "logit" then
       noise <- Gumbel_sample (float_lit 0 1) noise_level (shape obj_vals) ;;
       s <- lift (tensor_add obj_vals noise) ;;
       ret (Some s)
     else ret None) ;;
  read_local "corrupted_obj_vals" corrupted_obj_vals.

(** [generate_responses(obj_vals, noise_type, noise_level)]. *)
Definition generate_responses (obj_vals : tensor elt) (noise_type : string)
  (noise_level : elt) : M gen_state (tensor Z) :=
  corrupted_obj_vals <- corrupt_obj_vals obj_vals noise_type noise_level ;;
  responses <- lift (torch_argmax corrupted_obj_vals) ;;
  ret responses.

(** [generate_initial_data(num_queries, batch_size, input_dim, obj_func,
    comp_noise_type, comp_noise, seed)]; the objective is whatever callable
    the caller passes and may itself draw from the process-wide generator. *)
Definition generate_initial_data (num_queries batch_size input_dim : Z)
  (obj_func : tensor elt -> M gen_state (tensor elt))
  (comp_noise_type : string) (comp_noise : elt) (seed : option Z)
  : M gen_state (tensor elt * tensor elt * tensor Z) :=
  queries <- generate_random_queries num_queries batch_size input_dim seed ;;
  obj_vals <- get_obj_vals_effectful queries obj_func ;;
  responses <- generate_responses obj_vals comp_noise_type comp_noise ;;
  ret (queries, obj_vals, responses).

End Simulator.

(** *** Model fitter *)

(** The model classes of [src/models] and [botorch.fit]: constructors and
    the fitting routine act on a state of their own and may raise. *)
Class ModelLibrary (elt : Type) : Type :=
  { likelihood_t : Type;
    model_t : Type;
    mll_t : Type;
    device_t : Type;
    dtype_t : Type;
    fit_state : Type;
    tensor_device : tensor elt -> device_t;
    tensor_dtype : tensor elt -> dtype_t;
    PairwiseProbitLikelihood : M fit_state likelihood_t;
    PairwiseLogitLikelihood : M fit_state likelihood_t;
    PairwiseGP :
      tensor elt -> tensor Z -> likelihood_t -> elt -> M fit_state model_t;
    PairwiseLaplaceMarginalLogLikelihood :
      likelihood_t -> model_t -> M fit_state mll_t;
    fit_gpytorch_model : mll_t -> M fit_state mll_t;
    model_to : model_t -> device_t -> dtype_t -> M fit_state model_t;
    PairwiseKernelVariationalGP :
      tensor elt -> list Z -> M fit_state model_t }.

Section Fitter.

Context {elt : Type} {F : Float elt} {L : ModelLibrary elt}.

(** [fit_model(queries, responses, model_type, likelihood)]: the locals
    [likelihood_func] and [model] are bound on some paths only; a call
    evaluates its arguments, reading them, before the callee runs. *)
Definition fit_model (queries : tensor elt) (responses : list Z)
  (model_type : string) (likelihood : option string) : M fit_state model_t :=
  model <-
    (if String.eqb model_type "pairwise_gp" then
       likelihood_func <-
         (match likelihood with
          | Some l =>
              if String.eqb l "probit" then
                f <- PairwiseProbitLikelihood ;; ret (Some f)
              else if String.eqb l "logit" then
                f <- PairwiseLogitLikelihood ;; ret (Some f)
              else ret None
          | None => ret None
          end) ;;
       ' (datapoints, comparisons) <-
         lift (training_data_for_pairwise_gp queries responses) ;;
       lf <- read_local "likelihood_func" likelihood_func ;;
       model <- PairwiseGP datapoints comparisons lf (float_lit 1 10000) ;;
       mll <- PairwiseLaplaceMarginalLogLikelihood lf model ;;
       fit_gpytorch_model mll ;;;
       model <- model_to model (tensor_device queries) (tensor_dtype queries) ;;
       ret (Some model)
     else if String.eqb model_type "pairwise_kernel_variational_gp" then
       model <- PairwiseKernelVariationalGP queries responses ;;
       ret (Some model)
     else ret None) ;;
  read_local "model" model.

End Fitter.

(** *** Candidate optimizer *)

(** What [print] writes. *)
Inductive printed (elt : Type) : Type :=
| PStr (s : string)
| PTensor (t : tensor elt).
Arguments PStr {elt} s.
Arguments PTensor {elt} t.

(** The [options] dictionary and the keyword arguments of
    [botorch.optim.optimize.optimize_acqf]. *)
Record optimize_options : Type := mkOptions
  { batch_limit : option Z;
    init_batch_limit : option Z;
    maxiter : Z;
    nonnegative : bool;
    method : string }.

Record optimize_acqf_args (acqf elt : Type) : Type := mkArgs
  { acq_function : acqf;
    bounds : tensor elt;
    q : Z;
    num_restarts : nat;
    raw_samples : nat;
    options : optimize_options;
    return_best_only : bool }.

(** The state the optimizer call acts on, and the standard output. *)
Record world (lib elt : Type) : Type := mkWorld
  { lib_state : lib;
    stdout : list (printed elt) }.

(** The acquisition functions and the multi-start optimizer of botorch. *)
Class Optimizer (elt : Type) : Type :=
  { acqf_t : Type;
    optimizer_state : Type;
    optimize_acqf :
      optimize_acqf_args acqf_t elt ->
      M (world optimizer_state elt) (tensor elt * tensor elt) }.

Section CandidateOptimizer.

Context {elt : Type} {F : Float elt} {O : Optimizer elt}.

Definition print (x : printed elt) : M (world optimizer_state elt) unit :=
  fun w => (Ok tt, mkWorld (lib_state w) (stdout w ++ [x])).

(** [botorch.generation.gen.get_best_candidates]:
    [batch_candidates[argmax(batch_values.view(-1), dim=0)]]. *)
Definition get_best_candidates (batch_candidates batch_values : tensor elt)
  : result (tensor elt) :=
  best <- torch_argmax
            (mkTensor [numel (shape batch_values)] (data batch_values)
               (requires_grad batch_values)) ;;
  index_select0 batch_candidates best.

(** [optimize_acqf_and_get_suggested_query(acq_func, bounds, batch_size,
    batch_limit, init_batch_limit)]. *)
Definition optimize_acqf_and_get_suggested_query (acq_func : acqf_t)
  (bounds : tensor elt) (batch_size : Z)
  (batch_limit init_batch_limit : option Z)
  : M (world optimizer_state elt) (tensor elt) :=
  match shape bounds with
  | _ :: input_dim :: _ =>
      let q := batch_size in
      let raw_samples := 120 * input_dim in
      let num_restarts := 4 * input_dim in
      ' (candidates, acq_values) <-
        optimize_acqf
          (mkArgs acq_func bounds q num_restarts raw_samples
             (mkOptions batch_limit init_batch_limit 100 false "L-BFGS-B")
             false) ;;
      let candidates := detach candidates in
      let '(acq_values_sorted, indices) :=
        torch_sort_desc (squeeze acq_values) in
      print (PStr "Acquisition values:") ;;;
      print (PTensor acq_values_sorted) ;;;
      print (PStr "Candidates:") ;;;
      picked <- lift (index_select0 candidates indices) ;;
      print (PTensor (squeeze picked)) ;;;
      print (PTensor (squeeze candidates)) ;;;
      new_x <- lift (get_best_candidates candidates acq_values) ;;
      ret new_x
  | _ => raise IndexError
  end.

End CandidateOptimizer.

End Utils.
Import Utils.



(** ** Vocabulary of the specification *)

Module Spec.

(** The comparisons one query contributes, in the words of the data model:
    the winner's row paired with the row of every other item, in item
    order.  Rows are numbered query-major: item [j] of query [i] is row
    [i * B + j]. *)
Definition query_pairs (B i : nat) (r : Z) : list (Z * Z) :=
  map (fun j => ((Z.of_nat (i * B) + r)%Z, Z.of_nat (i * B + j)))
    (filter (fun j => negb (Z.of_nat j =? r)%Z) (range B)).

Definition comparison_pairs (N B : nat) (responses : list Z) : list (Z * Z) :=
  flat_map (fun i => query_pairs B i (nth i responses 0%Z)) (range N).

(** The entries of a tensor of shape [(M, 2)] holding the given pairs. *)
Definition pair_rows (ps : list (Z * Z)) : list Z :=
  flat_map (fun p => [fst p; snd p]) ps.

(** The seeds [torch.manual_seed] accepts. *)
Definition seed_in_range (seed : Z) : Prop :=
  (- 2 ^ 63 <= seed <= 2 ^ 64 - 1)%Z.

(** What the encoder's loops append: the points of query [i], each as a
    tensor of one row, and one tensor of one row per pair. *)
Definition query_points {elt} (queries : tensor elt) (inner : list nat)
  (B i : nat) : list (tensor elt) :=
  map (fun j => unsqueeze0 (slab queries inner (i * B + j))) (range B).

Definition pair_tensors (ps : list (Z * Z)) : list (tensor Z) :=
  map (fun p => unsqueeze0 (torch_tensor2 (fst p) (snd p))) ps.

Section Floats.

Context {elt : Type} {F : Float elt}.

(** An objective that applies [g] to every row of an [(m, d)] tensor. *)
Definition per_point (g : list elt -> elt) (m d : nat) (t : tensor elt)
  : tensor elt :=
  mkTensor [m] (map (fun k => g (block d k (data t))) (range m))
    (requires_grad t).

(** The entry at position [k] is a greatest entry of [l]. *)
Definition greatest (l : list elt) (k : nat) : Prop :=
  exists x, nth_error l k = Some x /\
            forall j y, nth_error l j = Some y -> float_ltb x y = false.

(** Every entry before position [k] is smaller than the one at [k]. *)
Definition first_greatest (l : list elt) (k : nat) : Prop :=
  greatest l k /\
  forall j x y, j < k -> nth_error l j = Some y -> nth_error l k = Some x ->
                float_ltb y x = true.

(** Coordinate [k] of a point lies between the two rows of [bounds]. *)
Definition coordinate_ok (bounds : tensor elt) (d k : nat) (x : elt) : bool :=
  match nth_error (block d 0 (data bounds)) k,
        nth_error (block d 1 (data bounds)) k with
  | Some lo, Some hi => negb (float_ltb x lo) && negb (float_ltb hi x)
  | _, _ => false
  end.

(** Every entry of [t], a tensor of points of dimension [d], lies within
    [bounds], a tensor of shape [(2, d)]. *)
Definition within_bounds (bounds t : tensor elt) : bool :=
  match shape bounds with
  | [_; d] =>
      forallb (fun p => coordinate_ok bounds d (fst p mod d) (snd p))
        (combine (seq 0 (length (data t))) (data t))
  | _ => false
  end.

End Floats.

End Spec.
Import Spec.

(** ** A small instance

    Integers stand for floats, a linear congruential generator for the
    engine's, and the libraries are replaced by stand-ins that record their
    calls; the examples below run the embedded code on them. *)

Module Demo.

#[export] Instance Float_Z : Float Z.
Proof.
  refine {| float_ltb := Z.ltb;
            float_add := Z.add;
            float_lit := fun a b => (a / Z.pos b)%Z |}.
  - intros a b H. apply Z.ltb_lt in H. apply Z.ltb_ge. lia.
  - intros a b c H. apply Z.ltb_lt in H. rewrite !Z.ltb_lt. lia.
Defined.

(** The generator's state: the state of the congruential recurrence and the
    number of draws since the seed was installed. *)
Definition lcg_step (g : Z * Z) : Z * (Z * Z) :=
  ((fst g mod 1000)%Z,
   (((1103515245 * fst g + 12345) mod 2 ^ 31)%Z, (snd g + 1)%Z)).

(** The stand-in engine allocates every tensor whose number of entries does
    not overflow the storage size. *)
#[export] Instance Generator_Z : Generator Z.
Proof.
  refine {| gen_state := (Z * Z)%type;
            seed_state := fun s => ((s mod 2 ^ 31)%Z, 0%Z);
            next_uniform := lcg_step;
            allocatable :=
              fun size => (fold_right Z.mul 1 size <? 2 ^ 61)%Z |}.
  intros size g _ Hn Heq.
  assert (Hcount : forall n g0,
             snd (snd (draw_from lcg_step n g0)) = (snd g0 + Z.of_nat n)%Z).
  { induction n as [|n IH]; intros g0.
    - simpl. lia.
    - cbn [draw_from]. unfold lcg_step at 1. cbv beta iota.
      specialize (IH (((1103515245 * fst g0 + 12345) mod 2 ^ 31)%Z,
                      (snd g0 + 1)%Z)).
      destruct (draw_from lcg_step n _) as [xs g2]. simpl in *. lia. }
  specialize (Hcount (numel (map Z.to_nat size)) g).
  rewrite Heq in Hcount. lia.
Defined.

Definition sample_Z (loc scale : Z) (s : list nat)
  : M (Z * Z)%type (tensor Z) :=
  fun g =>
    if (scale <=? 0)%Z then (Err ValueError, g)
    else let (xs, g') := draw (numel s) g in
         (Ok (mkTensor s (map (fun x => (loc + scale * x)%Z) xs) false), g').

#[export] Instance Distributions_Z : Distributions Z :=
  {| Normal_sample := sample_Z; Gumbel_sample := sample_Z |}.

(** Library stand-ins: the state is the list of calls made so far. *)
Definition call {A} (name : string) (a : A) : M (list string) A :=
  fun log => (Ok a, log ++ [name]).

#[export] Instance ModelLibrary_Z : ModelLibrary Z :=
  {| likelihood_t := string;
     model_t := string;
     mll_t := unit;
     device_t := unit;
     dtype_t := unit;
     fit_state := list string;
     tensor_device := fun _ => tt;
     tensor_dtype := fun _ => tt;
     PairwiseProbitLikelihood := call "PairwiseProbitLikelihood" "probit";
     PairwiseLogitLikelihood := call "PairwiseLogitLikelihood" "logit";
     PairwiseGP := fun _ _ l _ => call "PairwiseGP" l;
     PairwiseLaplaceMarginalLogLikelihood :=
       fun _ _ => call "PairwiseLaplaceMarginalLogLikelihood" tt;
     fit_gpytorch_model := fun m => call "fit_gpytorch_model" m;
     model_to := fun m _ _ => call "to" m;
     PairwiseKernelVariationalGP :=
       fun _ _ => call "PairwiseKernelVariationalGP" "variational" |}.

(** An optimizer stand-in: restart [r] proposes [q] copies of the lower
    bounds moved up by [r] and scores [3 * r mod 4]; its state records the
    restarts, the raw samples and the [return_best_only] flag of every call. *)
Definition optimize_acqf_Z (a : optimize_acqf_args unit Z)
  : M (world (list (nat * nat * bool)) Z) (tensor Z * tensor Z) :=
  fun w =>
    let d := nth 1 (shape (bounds a)) 0 in
    let qn := Z.to_nat (q a) in
    (Ok (mkTensor [num_restarts a; qn; d]
           (flat_map
              (fun r => concat
                          (repeat (map (fun lo => (lo + Z.of_nat r)%Z)
                                     (block d 0 (data (bounds a)))) qn))
              (range (num_restarts a)))
           true,
         mkTensor [num_restarts a]
           (map (fun r => Z.of_nat (3 * r mod 4)) (range (num_restarts a)))
           true),
     mkWorld
       (lib_state w ++ [(num_restarts a, raw_samples a, return_best_only a)])
       (stdout w)).

#[export] Instance Optimizer_Z : Optimizer Z :=
  {| acqf_t := unit;
     optimizer_state := list (nat * nat * bool);
     optimize_acqf := optimize_acqf_Z |}.

(** An objective: the sum of the squared coordinates of every point. *)
Definition sum_squares (x : list Z) : Z :=
  fold_right (fun c acc => (c * c + acc)%Z) 0%Z x.

Definition sum_squares_objective (t : tensor Z) : result (tensor Z) :=
  match shape t with
  | [m; d] => Ok (per_point sum_squares m d t)
  | _ => Err RuntimeError
  end.

(** An objective that returns its values as a column, of shape (M, 1): the
    first coordinate of every point. *)
Definition column_objective (t : tensor Z) : result (tensor Z) :=
  Ok (mkTensor [dim0 t; 1]
        (map (fun k => hd 0%Z (block (nth 1 (shape t) 0) k (data t)))
           (range (dim0 t)))
        false).

Definition no_calls : @fit_state Z ModelLibrary_Z := [].

(** The probit likelihood of the stand-in library, and the calls recorded
    once it has been constructed. *)
Definition probit_link : @likelihood_t Z ModelLibrary_Z := "probit".
Definition probit_constructed : @fit_state Z ModelLibrary_Z :=
  ["PairwiseProbitLikelihood"].

(** The generator in state [z], freshly installed, and after [c] draws. *)
Definition gen_at (z : Z) : @gen_state Z Generator_Z := (z, 0%Z).
Definition gen_after (z c : Z) : @gen_state Z Generator_Z := (z, c).

(** An objective with observation noise: the sum of squares of every point
    plus a draw from the process-wide generator. *)
Definition noisy_objective (t : tensor Z)
  : M (@gen_state Z Generator_Z) (tensor Z) :=
  vals <- lift (sum_squares_objective t) ;;
  noise <- sample_Z 0 1 (shape vals) ;;
  lift (tensor_add vals noise).

Definition constant_acqf : @acqf_t Z Optimizer_Z := tt.

(** Before the optimizer's call: nothing recorded, nothing printed. *)
Definition quiet : world (@optimizer_state Z Optimizer_Z) Z := mkWorld [] [].

(** After the optimizer's call for a one-dimensional design space. *)
Definition called : world (@optimizer_state Z Optimizer_Z) Z :=
  mkWorld [(4, 120, false)] [].

(** The interval from 0 to 10. *)
Definition bounds_0_10 : tensor Z := mkTensor [2; 1] [0; 10]%Z false.

(** Two queries of three points on the line. *)
Definition queries_2x3 : tensor Z :=
  mkTensor [2; 3; 1] [10; 11; 12; 20; 21; 22]%Z false.

(** One query of a single point. *)
Definition queries_1x1 : tensor Z := mkTensor [1; 1; 1] [5%Z] false.

End Demo.
Import Demo.

Unset Implicit Arguments.

(** ** Lists cut into blocks *)

Section Blocks.

Context {A : Type}.

Lemma firstn_add (a b : nat) (l : list A) :
  firstn (a + b) l = firstn a l ++ firstn b (skipn a l).
Proof.
  revert l; induction a as [|a IH]; intros [|x l]; simpl; trivial.
  - now rewrite firstn_nil.
  - now rewrite IH.
Qed.

Lemma block_concat (len n a : nat) (l : list A) :
  concat (map (fun k => block len k l) (seq a n))
  = firstn (n * len) (skipn (a * len) l).
Proof.
  revert a; induction n as [|n IH]; intros a; simpl; trivial.
  rewrite IH, firstn_add. unfold block. f_equal.
  now rewrite skipn_skipn.
Qed.

Lemma block_all (len n : nat) (l : list A) :
  length l = n * len ->
  concat (map (fun k => block len k l) (range n)) = l.
Proof.
  intros Hl. unfold range. rewrite block_concat. simpl.
  rewrite <- Hl. apply firstn_all.
Qed.

Lemma nth_error_block (len k i : nat) (l : list A) :
  nth_error (block len k l) i
  = if i <? len then nth_error l (k * len + i) else None.
Proof.
  unfold block. destruct (Nat.ltb_spec i len) as [Hi|Hi].
  - now rewrite nth_error_firstn, (proj2 (Nat.ltb_lt _ _) Hi), nth_error_skipn.
  - rewrite nth_error_firstn.
    now rewrite (proj2 (Nat.ltb_ge _ _) Hi).
Qed.

Lemma length_block (len k : nat) (l : list A) :
  (k + 1) * len <= length l -> length (block len k l) = len.
Proof.
  intros H. unfold block. rewrite length_firstn, length_skipn. lia.
Qed.

End Blocks.

Lemma seq_offset (B a : nat) : seq a B = map (fun j => a + j) (seq 0 B).
Proof.
  revert a. induction B as [|B IH]; intros a; simpl; trivial.
  rewrite Nat.add_0_r. f_equal.
  rewrite (IH (S a)), <- seq_shift, map_map. apply map_ext. intros; lia.
Qed.

Lemma map_flat_map {A B C} (f : B -> C) (g : A -> list B) (l : list A) :
  map f (flat_map g l) = flat_map (fun x => map f (g x)) l.
Proof.
  induction l as [|x l IH]; simpl; trivial. now rewrite map_app, IH.
Qed.

Lemma range_mul (N B : nat) :
  flat_map (fun i => map (fun j => i * B + j) (range B)) (range N)
  = range (N * B).
Proof.
  unfold range. induction N as [|N IH]; trivial.
  rewrite seq_S, flat_map_app, IH. simpl.
  rewrite app_nil_r, (Nat.add_comm B), seq_app. f_equal.
  simpl. symmetry. apply seq_offset.
Qed.

(** ** The array engine: concatenation *)

Section Cat.

Context {A : Type}.

Lemma shape_eqb_refl (s : list nat) : shape_eqb s s = true.
Proof. induction s; simpl; trivial. now rewrite Nat.eqb_refl. Qed.

Lemma torch_cat_rows (tl : list nat) (ts : list (tensor A)) :
  ts <> [] ->
  Forall (fun t => shape t = 1 :: tl) ts ->
  torch_cat ts
  = Ok (mkTensor (length ts :: tl) (concat (map (@data A) ts))
          (existsb (@requires_grad A) ts)).
Proof.
  intros Hne Hall. unfold torch_cat.
  destruct ts as [|t0 ts']; [congruence|].
  rewrite (Forall_inv Hall).
  replace (forallb _ (t0 :: ts')) with true.
  - do 3 f_equal. clear Hne.
    induction Hall as [|t l Ht _ IH]; trivial.
    simpl. unfold dim0 at 1. rewrite Ht. simpl. now f_equal.
  - symmetry. apply forallb_forall. intros t Ht.
    rewrite Forall_forall in Hall. rewrite (Hall t Ht).
    apply shape_eqb_refl.
Qed.

Lemma torch_cat_raises (ts : list (tensor A)) (e : exn) :
  torch_cat ts = Err e -> e = RuntimeError.
Proof.
  unfold torch_cat. destruct ts as [|t0 ts']; [congruence|].
  destruct (shape t0); [congruence|].
  destruct (forallb _ _); congruence.
Qed.

End Cat.

(** ** Comparison-data encoder *)

Section EncoderLoops.

Context {elt : Type}.
Variables (queries : tensor elt) (N B d : nat) (rest : list nat).
Hypothesis Hshape : shape queries = N :: B :: d :: rest.

Lemma select2_in_range (i j : nat) :
  i < N -> j < B -> select2 queries i j = Ok (slab queries (d :: rest) (i * B + j)).
Proof.
  intros Hi Hj. unfold select2. rewrite Hshape.
  now rewrite (proj2 (Nat.ltb_lt i N) Hi), (proj2 (Nat.ltb_lt j B) Hj).
Qed.

Lemma encoder_item_loop (i : nat) (ri best : Z) (len : nat) :
  i < N ->
  forall j0 dps cmps, j0 + len <= B ->
  for_each (seq j0 len) (encoder_item queries B i ri best) (dps, cmps)
  = Ok (dps ++ map (fun j => unsqueeze0 (slab queries (d :: rest) (i * B + j)))
                 (seq j0 len),
        cmps ++ map (fun j => unsqueeze0
                                (torch_tensor2 best (Z.of_nat (B * i + j))))
                  (filter (fun j => negb (Z.of_nat j =? ri)%Z) (seq j0 len))).
Proof.
  intros Hi. induction len as [|len IH]; intros j0 dps cmps Hj; simpl.
  - now rewrite !app_nil_r.
  - rewrite select2_in_range by lia. simpl.
    destruct (Z.of_nat j0 =? ri)%Z; simpl; rewrite IH by lia;
      now rewrite <- !app_assoc.
Qed.

Lemma encoder_query_ok (responses : list Z) (i : nat) (ri : Z) dps cmps :
  i < N -> nth_error responses i = Some ri ->
  encoder_query queries responses B (dps, cmps) i
  = Ok (dps ++ query_points queries (d :: rest) B i,
        cmps ++ pair_tensors (query_pairs B i ri)).
Proof.
  intros Hi Hr. unfold encoder_query. rewrite Hr.
  unfold range. rewrite encoder_item_loop by (trivial; lia).
  unfold query_points, pair_tensors, query_pairs, range.
  rewrite map_map. simpl. now rewrite (Nat.mul_comm B i).
Qed.

Lemma encoder_query_loop (responses : list Z) (len : nat) :
  N <= length responses ->
  forall i0 dps cmps, i0 + len <= N ->
  for_each (seq i0 len) (encoder_query queries responses B) (dps, cmps)
  = Ok (dps ++ flat_map (query_points queries (d :: rest) B) (seq i0 len),
        cmps ++ pair_tensors
                  (flat_map (fun i => query_pairs B i (nth i responses 0%Z))
                     (seq i0 len))).
Proof.
  intros Hlen. induction len as [|len IH]; intros i0 dps cmps Hi; simpl.
  - now rewrite !app_nil_r.
  - destruct (nth_error responses i0) as [ri|] eqn:Hr.
    2:{ apply nth_error_None in Hr. lia. }
    rewrite (encoder_query_ok responses i0 ri) by (trivial; lia). simpl.
    rewrite IH by lia.
    rewrite (nth_error_nth _ _ 0%Z Hr).
    unfold pair_tensors. now rewrite map_app, <- !app_assoc.
Qed.

(** The loops of the encoder run to their end whenever [responses] has an
    entry for every query. *)
Lemma encoder_loops (responses : list Z) :
  N <= length responses ->
  for_each (range N) (encoder_query queries responses B) ([], [])
  = Ok (flat_map (query_points queries (d :: rest) B) (range N),
        pair_tensors (comparison_pairs N B responses)).
Proof.
  intros Hlen. unfold range. now rewrite encoder_query_loop.
Qed.

Lemma encoder_loops_short (responses : list Z) (len : nat) :
  forall i0 acc, i0 <= length responses < i0 + len -> i0 + len <= N ->
  for_each (seq i0 len) (encoder_query queries responses B) acc
  = Err IndexError.
Proof.
  induction len as [|len IH]; intros i0 [dps cmps] Hi HN; simpl; [lia|].
  destruct (nth_error responses i0) as [ri|] eqn:Hr.
  - rewrite (encoder_query_ok responses i0 ri) by (trivial; lia). simpl.
    apply IH; [|lia].
    assert (i0 < length responses) by (apply nth_error_Some; congruence). lia.
  - unfold encoder_query. now rewrite Hr.
Qed.

Lemma query_points_shape (i : nat) :
  Forall (fun t => shape t = 1 :: d :: rest) (query_points queries (d :: rest) B i).
Proof. unfold query_points. apply Forall_map, Forall_forall. trivial. Qed.

Lemma datapoints_data :
  tensor_wf queries ->
  concat (map (@data elt) (flat_map (query_points queries (d :: rest) B) (range N)))
  = data queries.
Proof.
  intros Hwf. unfold query_points.
  rewrite <- (block_all (numel (d :: rest)) (N * B) (data queries)).
  2:{ rewrite Hwf, Hshape. simpl. lia. }
  rewrite <- range_mul, !map_flat_map. f_equal.
  apply flat_map_ext. intros i. now rewrite !map_map.
Qed.

Lemma length_datapoints :
  length (flat_map (query_points queries (d :: rest) B) (range N)) = N * B.
Proof.
  unfold query_points.
  transitivity (length (range (N * B))); [|apply length_seq].
  rewrite <- range_mul, !length_flat_map. f_equal.
  apply map_ext. intros i. now rewrite !length_map.
Qed.

End EncoderLoops.

Lemma length_filter_skip (r : Z) (n a : nat) :
  length (filter (fun j => negb (Z.of_nat j =? r)%Z) (seq a n))
  = if ((Z.of_nat a <=? r) && (r <? Z.of_nat (a + n)))%Z then n - 1 else n.
Proof.
  revert a. induction n as [|n IH]; intros a; simpl.
  - now destruct (_ && _).
  - destruct (Z.eqb_spec (Z.of_nat a) r) as [He|He]; simpl; rewrite IH;
      destruct (Z.leb_spec (Z.of_nat a) r), (Z.ltb_spec r (Z.of_nat (a + S n))),
        (Z.leb_spec (Z.of_nat (S a)) r), (Z.ltb_spec r (Z.of_nat (S a + n)));
      simpl; lia.
Qed.

Lemma length_query_pairs (B i : nat) (r : Z) :
  (0 <= r < Z.of_nat B)%Z -> length (query_pairs B i r) = B - 1.
Proof.
  intros Hr. unfold query_pairs, range. rewrite length_map, length_filter_skip.
  destruct (Z.leb_spec (Z.of_nat 0) r), (Z.ltb_spec r (Z.of_nat (0 + B)));
    simpl; lia.
Qed.

Lemma list_sum_const {A} (c : nat) (l : list A) :
  list_sum (map (fun _ => c) l) = length l * c.
Proof. induction l as [|x l IH]; simpl; trivial. now rewrite IH. Qed.

Lemma length_comparison_pairs (N B : nat) (responses : list Z) :
  N <= length responses ->
  Forall (fun r => (0 <= r < Z.of_nat B)%Z) responses ->
  length (comparison_pairs N B responses) = N * (B - 1).
Proof.
  intros Hlen Hall. unfold comparison_pairs, range.
  rewrite length_flat_map.
  rewrite (map_ext_in _ (fun _ => B - 1)).
  - rewrite list_sum_const, length_seq. reflexivity.
  - intros i Hi. apply in_seq in Hi. apply length_query_pairs.
    rewrite Forall_forall in Hall. apply Hall, nth_In. lia.
Qed.

Lemma comparison_pairs_sound (N B : nat) (responses : list Z) :
  N <= length responses ->
  Forall (fun r => (0 <= r < Z.of_nat B)%Z) responses ->
  Forall (fun p => fst p <> snd p
                   /\ (0 <= fst p < Z.of_nat (N * B))%Z
                   /\ (0 <= snd p < Z.of_nat (N * B))%Z)
    (comparison_pairs N B responses).
Proof.
  intros Hlen Hall. apply Forall_forall. intros p Hp.
  unfold comparison_pairs, query_pairs, range in Hp.
  apply in_flat_map in Hp. destruct Hp as (i & Hi & Hp).
  apply in_map_iff in Hp. destruct Hp as (j & <- & Hj).
  apply filter_In in Hj. destruct Hj as (Hj & Hne).
  apply in_seq in Hi. apply in_seq in Hj.
  assert (Hr : (0 <= nth i responses 0 < Z.of_nat B)%Z).
  { rewrite Forall_forall in Hall. apply Hall, nth_In. lia. }
  destruct (Z.eqb_spec (Z.of_nat j) (nth i responses 0%Z)); [discriminate|].
  simpl. nia.
Qed.

Lemma pair_tensors_cat (ps : list (Z * Z)) :
  ps <> [] ->
  torch_cat (pair_tensors ps)
  = Ok (mkTensor [length ps; 2] (pair_rows ps) false).
Proof.
  intros Hne. rewrite (torch_cat_rows [2]).
  - unfold pair_tensors, pair_rows. rewrite length_map. f_equal. f_equal.
    + rewrite map_map. simpl. now rewrite flat_map_concat_map.
    + clear Hne. induction ps; simpl; trivial.
  - destruct ps; [congruence | discriminate].
  - unfold pair_tensors. apply Forall_map, Forall_forall. trivial.
Qed.

Lemma length_pair_rows (ps : list (Z * Z)) :
  length (pair_rows ps) = length ps * 2.
Proof.
  unfold pair_rows. induction ps as [|p ps IH]; simpl; trivial.
  now rewrite IH.
Qed.

(** C1.  For a query batch of shape (N, B, d) with N >= 1 and B >= 2 and a
    response array of N entries, all in [0, B), the encoder returns
    datapoints of N * B rows, row i * B + j being point j of query i, and
    comparisons of N * (B - 1) rows that hold, query by query and item by
    item without the winner, the pairs (i * B + response[i], i * B + j);
    no pair has equal components and every index is a row of datapoints. *)
Theorem training_data_for_pairwise_gp_encoding {elt : Type}
  (queries : tensor elt) (responses : list Z) (N B d : nat) :
  shape queries = [N; B; d] -> tensor_wf queries ->
  1 <= N -> 2 <= B ->
  length responses = N ->
  Forall (fun r => (0 <= r < Z.of_nat B)%Z) responses ->
  exists datapoints comparisons,
    training_data_for_pairwise_gp queries responses
    = Ok (datapoints, comparisons)
    /\ shape datapoints = [N * B; d] /\ tensor_wf datapoints
    /\ (forall i j, i < N -> j < B ->
        exists p, select2 queries i j = Ok p
                  /\ block d (i * B + j) (data datapoints) = data p)
    /\ shape comparisons = [N * (B - 1); 2] /\ tensor_wf comparisons
    /\ data comparisons = pair_rows (comparison_pairs N B responses)
    /\ Forall (fun p => fst p <> snd p
                        /\ (0 <= fst p < Z.of_nat (N * B))%Z
                        /\ (0 <= snd p < Z.of_nat (N * B))%Z)
         (comparison_pairs N B responses).
Proof.
  intros Hshape Hwf HN HB Hlen Hall.
  pose proof (length_datapoints queries N B d []) as Hdl.
  pose proof (length_comparison_pairs N B responses
                ltac:(lia) Hall) as Hcl.
  unfold training_data_for_pairwise_gp. rewrite Hshape.
  rewrite (encoder_loops queries N B d [] Hshape) by lia. simpl.
  rewrite (torch_cat_rows [d]).
  2:{ intros E. rewrite E in Hdl. simpl in Hdl. nia. }
  2:{ apply Forall_flat_map, Forall_forall. intros i _.
      apply query_points_shape. }
  simpl. rewrite pair_tensors_cat.
  2:{ intros E. rewrite E in Hcl. simpl in Hcl. nia. }
  simpl. do 2 eexists. split; [reflexivity|]. simpl.
  rewrite Hdl, Hcl, (datapoints_data queries N B d [] Hshape Hwf).
  repeat split; trivial.
  - unfold tensor_wf in *. simpl. rewrite Hwf, Hshape. simpl. lia.
  - intros i j Hi Hj. eexists. split.
    + apply (select2_in_range queries N B d [] Hshape); trivial.
    + simpl. now rewrite Nat.mul_1_r.
  - unfold tensor_wf. simpl. rewrite length_pair_rows, Hcl. lia.
  - apply comparison_pairs_sound; trivial. lia.
Qed.

Lemma training_data_for_pairwise_gp_encoding_witness :
  exists datapoints comparisons,
    training_data_for_pairwise_gp queries_2x3 [1; 0]%Z
    = Ok (datapoints, comparisons)
    /\ shape datapoints = [2 * 3; 1] /\ tensor_wf datapoints
    /\ (forall i j, i < 2 -> j < 3 ->
        exists p, select2 queries_2x3 i j = Ok p
                  /\ block 1 (i * 3 + j) (data datapoints) = data p)
    /\ shape comparisons = [2 * (3 - 1); 2] /\ tensor_wf comparisons
    /\ data comparisons = pair_rows (comparison_pairs 2 3 [1; 0]%Z)
    /\ Forall (fun p => fst p <> snd p
                        /\ (0 <= fst p < Z.of_nat (2 * 3))%Z
                        /\ (0 <= snd p < Z.of_nat (2 * 3))%Z)
         (comparison_pairs 2 3 [1; 0]%Z).
Proof.
  apply (training_data_for_pairwise_gp_encoding queries_2x3 [1; 0]%Z 2 3 1).
  - reflexivity.
  - reflexivity.
  - lia.
  - lia.
  - reflexivity.
  - repeat constructor; simpl; lia.
Defined.

Example training_data_for_pairwise_gp_2x3 :
  training_data_for_pairwise_gp queries_2x3 [1; 0]%Z
  = Ok (mkTensor [6; 1] [10; 11; 12; 20; 21; 22]%Z false,
        mkTensor [4; 2] [1; 0; 1; 2; 3; 4; 3; 5]%Z false).
Proof. reflexivity. Qed.

(** With one item per query and every response naming it, the loops append
    no comparison. *)
Lemma comparison_pairs_single (N : nat) (responses : list Z) :
  N <= length responses ->
  Forall (fun r => (0 <= r < 1)%Z) responses ->
  comparison_pairs N 1 responses = [].
Proof.
  intros Hlen Hall. apply length_zero_iff_nil.
  now rewrite (length_comparison_pairs N 1 responses Hlen Hall), Nat.mul_0_r.
Qed.

(** C10, amended.  For a query batch with one item per query and a response
    array whose entries all lie in [0, 1), the encoder fails: with an entry
    for every query no pair is appended and a concatenation of an empty list
    raises, with too few entries the lookup of the missing one raises. *)
Theorem training_data_for_pairwise_gp_single_item {elt : Type}
  (queries : tensor elt) (responses : list Z) (N d : nat) (rest : list nat) :
  shape queries = N :: 1 :: d :: rest ->
  Forall (fun r => (0 <= r < 1)%Z) responses ->
  training_data_for_pairwise_gp queries responses
  = Err (if N <=? length responses then RuntimeError else IndexError)
  /\ (N <= length responses ->
      for_each (range N) (encoder_query queries responses 1) ([], [])
      = Ok (flat_map (query_points queries (d :: rest) 1) (range N), [])).
Proof.
  intros Hshape Hall. unfold training_data_for_pairwise_gp. rewrite Hshape.
  destruct (Nat.leb_spec N (length responses)) as [Hlen|Hlen].
  - rewrite (encoder_loops queries N 1 d rest Hshape) by trivial.
    rewrite (comparison_pairs_single N responses Hlen Hall). simpl.
    split; [|trivial].
    destruct (torch_cat _) as [t|e] eqn:Hcat; [reflexivity|].
    now rewrite (torch_cat_raises _ _ Hcat).
  - split; [|lia].
    unfold range.
    now rewrite (encoder_loops_short queries N 1 d rest Hshape responses N
                   0 ([], [])) by lia.
Qed.

Lemma training_data_for_pairwise_gp_single_item_witness :
  training_data_for_pairwise_gp queries_1x1 [0%Z]
  = Err (if 1 <=? length [0%Z] then RuntimeError else IndexError)
  /\ (1 <= length [0%Z] ->
      for_each (range 1) (encoder_query queries_1x1 [0%Z] 1) ([], [])
      = Ok (flat_map (query_points queries_1x1 [1] 1) (range 1), [])).
Proof.
  apply (training_data_for_pairwise_gp_single_item queries_1x1 [0%Z] 1 1 []).
  - reflexivity.
  - repeat constructor; lia.
Defined.

(** C10 as stated does not hold: a response that names no item of its
    one-item query makes that item a loser, and the encoder returns. *)
Lemma training_data_for_pairwise_gp_single_item_counterexample :
  training_data_for_pairwise_gp queries_1x1 [1%Z]
  = Ok (mkTensor [1; 1] [5%Z] false, mkTensor [1; 2] [1; 0]%Z false).
Proof. reflexivity. Qed.

(** ** Model fitter *)

(** C2.  Where an invalid-argument error is called for, the code raises
    Python's [UnboundLocalError]: whenever [model_type] is neither
    "pairwise_gp" nor "pairwise_kernel_variational_gp" no branch binds the
    local [model], which the final [return] reads; whenever [model_type] is
    "pairwise_gp" and [likelihood] is neither "probit" nor "logit" no branch
    binds [likelihood_func], which is read when the arguments of [PairwiseGP]
    are evaluated, after the encoder has run (an exception of the encoder
    comes first).  Either way the call fails before any library call and
    leaves the state as it was. *)
Theorem fit_model_unrecognized {elt : Type} {F : Float elt}
  {L : ModelLibrary elt} (queries : tensor elt) (responses : list Z)
  (model_type : string) (likelihood : option string) (s : fit_state) :
  (model_type <> "pairwise_gp"
   /\ model_type <> "pairwise_kernel_variational_gp")
  \/ (model_type = "pairwise_gp"
      /\ likelihood <> Some "probit" /\ likelihood <> Some "logit") ->
  fit_model queries responses model_type likelihood s
  = (Err (if String.eqb model_type "pairwise_gp"
          then match training_data_for_pairwise_gp queries responses with
               | Ok _ => UnboundLocalError "likelihood_func"
               | Err e => e
               end
          else UnboundLocalError "model"), s).
Proof.
  intros [[Hgp Hvar] | [-> [Hprobit Hlogit]]]; unfold fit_model.
  - apply String.eqb_neq in Hgp, Hvar. now rewrite Hgp, Hvar.
  - rewrite String.eqb_refl.
    assert (Hlik : match likelihood with
                   | Some l =>
                       if String.eqb l "probit" then
                         f <- PairwiseProbitLikelihood ;; ret (Some f)
                       else if String.eqb l "logit" then
                         f <- PairwiseLogitLikelihood ;; ret (Some f)
                       else ret None
                   | None => ret None
                   end = (ret None : M fit_state (option likelihood_t))).
    { destruct likelihood as [l|]; trivial.
      destruct (String.eqb_spec l "probit"); [congruence|].
      destruct (String.eqb_spec l "logit"); [congruence|]. trivial. }
    rewrite Hlik. simpl. unfold lift.
    destruct (training_data_for_pairwise_gp queries responses) as [[dp cp]|e];
      reflexivity.
Qed.

Lemma fit_model_unrecognized_witness :
  fit_model queries_2x3 [1; 0]%Z "pairwise_gp" (Some "cauchy") no_calls
  = (Err (UnboundLocalError "likelihood_func"), no_calls).
Proof.
  apply (fit_model_unrecognized queries_2x3 [1; 0]%Z "pairwise_gp"
           (Some "cauchy") no_calls).
  right. repeat split; discriminate.
Defined.

Example fit_model_unknown_family :
  fit_model queries_2x3 [1; 0]%Z "random_forest" (Some "logit") no_calls
  = (Err (UnboundLocalError "model"), no_calls).
Proof. reflexivity. Qed.

Example fit_model_no_likelihood_after_encoder_failure :
  fit_model queries_1x1 [0%Z] "pairwise_gp" None no_calls
  = (Err RuntimeError, no_calls).
Proof. reflexivity. Qed.

Example fit_model_pairwise_gp_logit :
  fit_model queries_2x3 [1; 0]%Z "pairwise_gp" (Some "logit") no_calls
  = (Ok "logit",
     ["PairwiseLogitLikelihood"; "PairwiseGP";
      "PairwiseLaplaceMarginalLogLikelihood"; "fit_gpytorch_model"; "to"]).
Proof. reflexivity. Qed.

(** ** Response simulator *)

(** C3.  Where an invalid-argument error is called for, the code raises
    Python's [UnboundLocalError]: for every [noise_type] other than
    "noiseless", "probit" and "logit", whatever the values and the noise
    level, no branch of [corrupt_obj_vals] binds the local
    [corrupted_obj_vals], which the final [return] reads; [generate_responses]
    fails with it, and nothing is drawn from the generator. *)
Theorem corrupt_obj_vals_unrecognized {elt : Type} {F : Float elt}
  {G : Generator elt} {D : Distributions elt} (obj_vals : tensor elt)
  (noise_type : string) (noise_level : elt) (g : gen_state) :
  noise_type <> "noiseless" -> noise_type <> "probit" ->
  noise_type <> "logit" ->
  corrupt_obj_vals obj_vals noise_type noise_level g
  = (Err (UnboundLocalError "corrupted_obj_vals"), g)
  /\ generate_responses obj_vals noise_type noise_level g
     = (Err (UnboundLocalError "corrupted_obj_vals"), g).
Proof.
  intros H1 H2 H3. apply String.eqb_neq in H1, H2, H3.
  unfold generate_responses, corrupt_obj_vals. simpl.
  now rewrite H1, H2, H3.
Qed.

Lemma corrupt_obj_vals_unrecognized_witness :
  corrupt_obj_vals (mkTensor [1; 2] [3; 4]%Z false) "uniform" 1%Z (gen_at 7)
  = (Err (UnboundLocalError "corrupted_obj_vals"), gen_at 7)
  /\ generate_responses (mkTensor [1; 2] [3; 4]%Z false) "uniform" 1%Z
       (gen_at 7)
     = (Err (UnboundLocalError "corrupted_obj_vals"), gen_at 7).
Proof.
  apply (corrupt_obj_vals_unrecognized (mkTensor [1; 2] [3; 4]%Z false)
           "uniform" 1%Z (gen_at 7)); discriminate.
Defined.

(** ** Query sampler *)

Section SamplerFacts.

Context {elt : Type} {G : Generator elt}.


Lemma draw_draw_from (n : nat) (g : gen_state) :
  draw n g = draw_from next_uniform n g.
Proof.
  revert g. induction n as [|n IH]; intros g; simpl; trivial.
  destruct (next_uniform g) as [x g1]. now rewrite IH.
Qed.

(** Filling an allocatable tensor that has an entry moves the generator. *)
Lemma draw_moves (size : list Z) (g : gen_state) :
  allocatable size = true ->
  numel (map Z.to_nat size) <> 0 ->
  snd (draw (numel (map Z.to_nat size)) g) <> g.
Proof.
  intros Ha Hn. rewrite draw_draw_from. now apply draws_move.
Qed.

Lemma torch_rand_nonneg (size : list Z) (g : gen_state) :
  Forall (fun n => (0 <= n)%Z) size ->
  allocatable size = true ->
  torch_rand size g
  = (Ok (mkTensor (map Z.to_nat size)
           (fst (draw (numel (map Z.to_nat size)) g)) false),
     snd (draw (numel (map Z.to_nat size)) g)).
Proof.
  intros Hall Ha. unfold torch_rand. rewrite Ha.
  replace (forallb _ size) with true.
  - now destruct (draw _ g).
  - symmetry. apply forallb_forall. rewrite Forall_forall in Hall.
    intros x Hx. apply Z.leb_le. now apply Hall.
Qed.

Lemma torch_rand_negative (size : list Z) (g : gen_state) :
  Exists (fun n => (n < 0)%Z) size ->
  torch_rand size g = (Err RuntimeError, g).
Proof.
  intros Hex. unfold torch_rand.
  replace (forallb _ size) with false; trivial.
  symmetry. apply not_true_is_false. intros Hall.
  rewrite forallb_forall in Hall. apply Exists_exists in Hex.
  destruct Hex as (x & Hx & Hneg). apply Hall, Z.leb_le in Hx. lia.
Qed.

(** Sizes the engine cannot allocate make [torch.rand] raise with nothing
    drawn. *)
Lemma torch_rand_unallocatable (size : list Z) (g : gen_state) :
  allocatable size = false ->
  torch_rand size g = (Err RuntimeError, g).
Proof.
  intros Ha. unfold torch_rand. rewrite Ha.
  now destruct (forallb _ size).
Qed.

Lemma manual_seed_in_range (seed : Z) (g : gen_state) :
  seed_in_range seed -> manual_seed seed g = (Ok tt, seed_state seed).
Proof.
  unfold seed_in_range, manual_seed. intros [Hlo Hhi].
  apply Z.leb_le in Hlo, Hhi. now rewrite Hlo, Hhi.
Qed.

Lemma manual_seed_out_of_range (seed : Z) (g : gen_state) :
  ~ seed_in_range seed -> manual_seed seed g = (Err RuntimeError, g).
Proof.
  unfold seed_in_range, manual_seed. intros Hout.
  destruct (Z.leb_spec (- 2 ^ 63) seed), (Z.leb_spec seed (2 ^ 64 - 1));
    trivial; lia.
Qed.

(** A seeded call with sizes that [torch.rand] accepts: the batch is drawn
    from the seed's state and the caller's state is put back. *)
Lemma seeded_call_restores (n b d seed : Z) (g : gen_state) :
  (0 <= n)%Z -> (0 <= b)%Z -> (0 <= d)%Z ->
  allocatable [n; b; d] = true -> seed_in_range seed ->
  generate_random_queries n b d (Some seed) g
  = (Ok (mkTensor [Z.to_nat n; Z.to_nat b; Z.to_nat d]
           (fst (draw (Z.to_nat n * (Z.to_nat b * (Z.to_nat d * 1)))
                   (seed_state seed))) false), g).
Proof.
  intros Hn Hb Hd Ha Hs. unfold generate_random_queries. simpl.
  unfold get_rng_state, get, set_rng_state, put.
  rewrite (manual_seed_in_range seed g Hs).
  rewrite torch_rand_nonneg by (repeat constructor; trivial).
  reflexivity.
Qed.

(** A seeded call whose [torch.rand] raises: [set_rng_state] is not reached
    and the generator stays in the state the seed installed. *)
Lemma seeded_call_rand_raises (n b d seed : Z) (g : gen_state) :
  seed_in_range seed ->
  torch_rand [n; b; d] (seed_state seed) = (Err RuntimeError, seed_state seed) ->
  generate_random_queries n b d (Some seed) g
  = (Err RuntimeError, seed_state seed).
Proof.
  intros Hs Hrand. unfold generate_random_queries. simpl.
  unfold get_rng_state, get.
  rewrite (manual_seed_in_range seed g Hs). now rewrite Hrand.
Qed.

Lemma seeded_call_bad_seed (n b d seed : Z) (g : gen_state) :
  ~ seed_in_range seed ->
  generate_random_queries n b d (Some seed) g = (Err RuntimeError, g).
Proof.
  intros Hs. unfold generate_random_queries. simpl.
  unfold get_rng_state, get.
  now rewrite (manual_seed_out_of_range seed g Hs).
Qed.

(** An unseeded call with sizes that [torch.rand] accepts. *)
Lemma unseeded_call_draws (n b d : Z) (g : gen_state) :
  (0 <= n)%Z -> (0 <= b)%Z -> (0 <= d)%Z ->
  allocatable [n; b; d] = true ->
  generate_random_queries n b d None g
  = (Ok (mkTensor [Z.to_nat n; Z.to_nat b; Z.to_nat d]
           (fst (draw (Z.to_nat n * (Z.to_nat b * (Z.to_nat d * 1))) g))
           false),
     snd (draw (Z.to_nat n * (Z.to_nat b * (Z.to_nat d * 1))) g)).
Proof.
  intros Hn Hb Hd Ha. unfold generate_random_queries. simpl.
  now rewrite torch_rand_nonneg by (repeat constructor; trivial).
Qed.

End SamplerFacts.




Example seeded_call_seed_42 :
  generate_random_queries 2 3 1 (Some 42%Z) (gen_at 7)
  = (Ok (mkTensor [2; 3; 1] [42; 27; 264; 753; 806; 735]%Z false), gen_at 7).
Proof. vm_compute. reflexivity. Qed.

(** Without positive sizes the restoration is not reached either: a
    negative size makes [torch.rand] raise after the seed was installed. *)
Example seeded_call_negative_size :
  generate_random_queries (-1) 2 1 (Some 42%Z) (gen_at 7)
  = (Err RuntimeError, gen_at 42).
Proof. reflexivity. Qed.

(** C5, amended.  Without a seed, and for non-negative sizes of a batch
    that [torch.rand] can allocate, the call draws
    num_queries * batch_size * input_dim numbers from the global generator
    and leaves it in the state reached after them; it neither saves nor
    restores a state, and the generator is back in the state it started
    from only when nothing is drawn, that is when one of the sizes is
    zero. *)
Theorem generate_random_queries_unseeded {elt : Type} {G : Generator elt}
  (n b d : Z) (g : gen_state) :
  (0 <= n)%Z -> (0 <= b)%Z -> (0 <= d)%Z ->
  allocatable [n; b; d] = true ->
  generate_random_queries n b d None g
  = (Ok (mkTensor [Z.to_nat n; Z.to_nat b; Z.to_nat d]
           (fst (draw (Z.to_nat n * (Z.to_nat b * (Z.to_nat d * 1))) g))
           false),
     snd (draw (Z.to_nat n * (Z.to_nat b * (Z.to_nat d * 1))) g))
  /\ (snd (generate_random_queries n b d None g) = g
      <-> (n = 0 \/ b = 0 \/ d = 0)%Z).
Proof.
  intros Hn Hb Hd Ha.
  rewrite unseeded_call_draws by trivial.
  split; [reflexivity|]. cbn [snd]. split.
  - intros Hback.
    destruct (Z.eq_dec n 0) as [|Hn0]; [tauto|].
    destruct (Z.eq_dec b 0) as [|Hb0]; [tauto|].
    destruct (Z.eq_dec d 0) as [|Hd0]; [tauto|].
    exfalso. apply (draw_moves [n; b; d] g Ha); [|exact Hback].
    cbn [map numel fold_right].
    assert (0 < Z.to_nat n) by lia. assert (0 < Z.to_nat b) by lia.
    assert (0 < Z.to_nat d) by lia. nia.
  - intros Hzero.
    replace (Z.to_nat n * (Z.to_nat b * (Z.to_nat d * 1))) with 0;
      [reflexivity|].
    destruct Hzero as [H0|[H0|H0]]; subst; simpl; lia.
Qed.

Lemma generate_random_queries_unseeded_witness :
  generate_random_queries 1 2 1 None (gen_at 7)
  = (Ok (mkTensor [Z.to_nat 1; Z.to_nat 2; Z.to_nat 1]
           (fst (draw (Z.to_nat 1 * (Z.to_nat 2 * (Z.to_nat 1 * 1)))
                   (gen_at 7)))
           false),
     snd (draw (Z.to_nat 1 * (Z.to_nat 2 * (Z.to_nat 1 * 1))) (gen_at 7)))
  /\ (snd (generate_random_queries 1 2 1 None (gen_at 7)) = gen_at 7
      <-> (1 = 0 \/ 2 = 0 \/ 1 = 0)%Z).
Proof.
  apply (generate_random_queries_unseeded 1 2 1 (gen_at 7));
    [lia | lia | lia | reflexivity].
Defined.

(** C5 as stated does not hold: an unseeded call for two numbers leaves the
    generator two steps further. *)
Lemma generate_random_queries_unseeded_counterexample :
  generate_random_queries 1 2 1 None (gen_at 7)
  = (Ok (mkTensor [1; 2; 1] [7; 116]%Z false), gen_after 642666333 2)
  /\ snd (generate_random_queries 1 2 1 None (gen_at 7)) <> gen_at 7.
Proof. split; vm_compute; [reflexivity | discriminate]. Qed.

(** C6, amended.  The call fails, by the array engine's error, whenever one
    of the sizes is negative, with or without a seed. *)
Theorem generate_random_queries_fails_when_negative {elt : Type}
  {G : Generator elt} (n b d : Z) (seed : option Z) (g : gen_state) :
  (n < 0 \/ b < 0 \/ d < 0)%Z ->
  fst (generate_random_queries n b d seed g) = Err RuntimeError.
Proof.
  intros Hneg.
  assert (Hrand : forall g', torch_rand [n; b; d] g' = (Err RuntimeError, g')).
  { intros g'. apply torch_rand_negative.
    destruct Hneg as [H|[H|H]]; [left | right; left | do 2 right; left];
      exact H. }
  destruct seed as [s|].
  - destruct (Z_le_dec (- 2 ^ 63) s) as [Hlo|Hlo];
      [destruct (Z_le_dec s (2 ^ 64 - 1)) as [Hhi|Hhi]|].
    + now rewrite seeded_call_rand_raises
        by (unfold seed_in_range; trivial; lia).
    + now rewrite seeded_call_bad_seed by (unfold seed_in_range; lia).
    + now rewrite seeded_call_bad_seed by (unfold seed_in_range; lia).
  - unfold generate_random_queries. simpl. now rewrite Hrand.
Qed.

Lemma generate_random_queries_fails_when_negative_witness :
  fst (generate_random_queries (-1) 2 1 (Some 42%Z) (gen_at 7))
  = Err RuntimeError.
Proof.
  apply (generate_random_queries_fails_when_negative (-1) 2 1 (Some 42%Z)
           (gen_at 7)).
  left. lia.
Defined.

(** C6 as stated does not hold: a size of zero is accepted and gives a batch
    without entries. *)
Lemma generate_random_queries_zero_size_counterexample :
  generate_random_queries 0 2 1 None (gen_at 7)
  = (Ok (mkTensor [0; 2; 1] [] false), gen_at 7).
Proof. reflexivity. Qed.

(** ** Objective evaluator *)

Lemma nth_error_map_range {A : Type} (f : nat -> A) (n k : nat) :
  k < n -> nth_error (map f (range n)) k = Some (f k).
Proof.
  intros Hk. unfold range.
  now rewrite nth_error_map, nth_error_seq, (proj2 (Nat.ltb_lt k n) Hk).
Qed.

(** C7.  For a query batch of shape (N, B, d) and an objective that maps an
    (M, d) tensor to the (M,) tensor of a per-point function [g] applied to
    each row, [get_obj_vals] returns a tensor of shape (N, B) whose entry
    (i, j) is [g] applied to point j of query i: flattening, evaluating and
    reshaping equals evaluating point by point. *)
Theorem get_obj_vals_per_point {elt : Type} (queries : tensor elt)
  (obj_func : tensor elt -> result (tensor elt)) (g : list elt -> elt)
  (N B d : nat) :
  shape queries = [N; B; d] ->
  (forall t m, shape t = [m; d] ->
     exists v, obj_func t = Ok v /\ shape v = [m]
               /\ data v = map (fun k => g (block d k (data t))) (range m)) ->
  exists obj_vals,
    get_obj_vals queries obj_func = Ok obj_vals
    /\ shape obj_vals = [N; B] /\ tensor_wf obj_vals
    /\ (forall i j, i < N -> j < B ->
        exists p, select2 queries i j = Ok p
                  /\ nth_error (data obj_vals) (i * B + j) = Some (g (data p)))
    /\ data obj_vals
       = flat_map (fun i => map (fun j => g (block d (i * B + j) (data queries)))
                              (range B)) (range N).
Proof.
  intros Hshape Hobj.
  assert (Hflat : reshape queries [N * B; d]
                  = Ok (mkTensor [N * B; d] (data queries)
                          (requires_grad queries))).
  { unfold reshape. rewrite Hshape.
    replace (numel [N * B; d] =? numel [N; B; d]) with true; trivial.
    symmetry. apply Nat.eqb_eq. simpl. lia. }
  destruct (Hobj (mkTensor [N * B; d] (data queries) (requires_grad queries))
              (N * B) eq_refl) as (v & Hv & Hvshape & Hvdata).
  simpl in Hvdata.
  unfold get_obj_vals. rewrite Hshape, Hflat. simpl. rewrite Hv.
  unfold reshape. rewrite Hvshape.
  replace (numel [N; B] =? numel [N * B]) with true
    by (symmetry; apply Nat.eqb_eq; simpl; lia).
  eexists. split; [reflexivity|]. simpl. rewrite Hvdata. repeat split.
  - unfold tensor_wf. simpl. unfold range. rewrite length_map, length_seq. lia.
  - intros i j Hi Hj. eexists. split.
    + apply (select2_in_range queries N B d [] Hshape); trivial.
    + rewrite nth_error_map_range by nia. simpl. now rewrite Nat.mul_1_r.
  - rewrite <- range_mul, map_flat_map. apply flat_map_ext. intros i.
    now rewrite map_map.
Qed.

Lemma get_obj_vals_per_point_witness :
  exists obj_vals,
    get_obj_vals queries_2x3 sum_squares_objective = Ok obj_vals
    /\ shape obj_vals = [2; 3] /\ tensor_wf obj_vals
    /\ (forall i j, i < 2 -> j < 3 ->
        exists p, select2 queries_2x3 i j = Ok p
                  /\ nth_error (data obj_vals) (i * 3 + j)
                     = Some (sum_squares (data p)))
    /\ data obj_vals
       = flat_map (fun i => map (fun j => sum_squares
                                            (block 1 (i * 3 + j)
                                               (data queries_2x3)))
                              (range 3)) (range 2).
Proof.
  apply (get_obj_vals_per_point queries_2x3 sum_squares_objective sum_squares
           2 3 1).
  - reflexivity.
  - intros t m Ht. exists (per_point sum_squares m 1 t).
    unfold sum_squares_objective. rewrite Ht. repeat split.
Defined.

Example get_obj_vals_2x3 :
  get_obj_vals queries_2x3 sum_squares_objective
  = Ok (mkTensor [2; 3] [100; 121; 144; 400; 441; 484]%Z false).
Proof. reflexivity. Qed.

(** ** The array engine: arg-max *)

Section Argmax.

Context {elt : Type} {F : Float elt}.

Lemma float_ltb_irrefl (a : elt) : float_ltb a a = false.
Proof.
  destruct (float_ltb a a) eqn:H; trivial.
  now rewrite (float_ltb_asym a a H) in H.
Qed.

Lemma float_ltb_trans (a b c : elt) :
  float_ltb a b = true -> float_ltb b c = true -> float_ltb a c = true.
Proof.
  intros Hab Hbc. destruct (float_ltb_cotrans a b c Hab) as [H|H]; trivial.
  now rewrite (float_ltb_asym b c Hbc) in H.
Qed.

(** The scan keeps the first greatest entry of what it has read. *)
Lemma argmax_from_first_greatest (l : list elt) :
  forall (prefix : list elt) (best_i : nat) (best : elt) (i : nat),
  i = length prefix ->
  nth_error prefix best_i = Some best ->
  (forall j y, nth_error prefix j = Some y -> float_ltb best y = false) ->
  (forall j y, j < best_i -> nth_error prefix j = Some y ->
               float_ltb y best = true) ->
  first_greatest (prefix ++ l) (argmax_from best_i best i l).
Proof.
  induction l as [|x l IH]; intros prefix best_i best i Hi Hb Hge Hlt.
  - simpl. rewrite app_nil_r. split.
    + exists best. split; trivial.
    + intros j x y Hj Hy Hx. rewrite Hb in Hx. injection Hx as <-.
      now apply (Hlt j).
  - assert (Hbi : best_i < length prefix)
      by (apply nth_error_Some; congruence).
    replace (prefix ++ x :: l) with ((prefix ++ [x]) ++ l)
      by (now rewrite <- app_assoc).
    assert (Hlast : forall j y, length prefix <= j ->
              nth_error (prefix ++ [x]) j = Some y -> y = x).
    { intros j y Hj Hy. rewrite nth_error_app2 in Hy by trivial.
      destruct (j - length prefix) as [|[|?]]; simpl in Hy;
        try discriminate.
      now injection Hy as <-. }
    simpl. destruct (float_ltb best x) eqn:Hbx; apply IH;
      try (rewrite length_app; simpl; lia).
    + subst i. now rewrite nth_error_app2, Nat.sub_diag by lia.
    + intros j y Hy.
      destruct (Nat.lt_ge_cases j (length prefix)) as [Hj|Hj].
      * rewrite nth_error_app1 in Hy by trivial.
        destruct (float_ltb x y) eqn:Hxy; trivial.
        rewrite <- (Hge j y Hy). symmetry.
        now apply (float_ltb_trans best x y).
      * rewrite (Hlast j y Hj Hy). apply float_ltb_irrefl.
    + intros j y Hj Hy. subst i. rewrite nth_error_app1 in Hy by trivial.
      destruct (float_ltb_cotrans best x y Hbx) as [H|H]; trivial.
      now rewrite (Hge j y Hy) in H.
    + now rewrite nth_error_app1.
    + intros j y Hy.
      destruct (Nat.lt_ge_cases j (length prefix)) as [Hj|Hj].
      * rewrite nth_error_app1 in Hy by trivial. now apply (Hge j).
      * now rewrite (Hlast j y Hj Hy).
    + intros j y Hj Hy. rewrite nth_error_app1 in Hy by lia.
      now apply (Hlt j).
Qed.

Lemma argmax_list_first_greatest (l : list elt) :
  l <> [] -> first_greatest l (argmax_list l).
Proof.
  destruct l as [|x l]; [congruence|]. intros _. unfold argmax_list.
  apply (argmax_from_first_greatest l [x] 0 x 1); trivial.
  - intros [|[|j]] y Hy; simpl in Hy; try discriminate.
    injection Hy as <-. apply float_ltb_irrefl.
  - intros j y Hj. lia.
Qed.

Lemma argmax_list_lt (l : list elt) :
  l <> [] -> argmax_list l < length l.
Proof.
  intros Hne. destruct (argmax_list_first_greatest l Hne) as [[x [Hx _]] _].
  apply nth_error_Some. congruence.
Qed.

End Argmax.

Lemma block_nonempty {A : Type} (len k : nat) (l : list A) :
  1 <= len -> (k + 1) * len <= length l -> block len k l <> [].
Proof.
  intros Hlen Hk E. apply (f_equal (@length A)) in E.
  rewrite length_block in E by trivial. simpl in E. lia.
Qed.

(** C8.  With noise_type "noiseless" and any noise level,
    [corrupt_obj_vals] returns its input itself and draws nothing, and
    [generate_responses] returns for every query row the index of the first
    greatest of the uncorrupted values along the batch axis. *)
Theorem generate_responses_noiseless {elt : Type} {F : Float elt}
  {G : Generator elt} {D : Distributions elt} (obj_vals : tensor elt)
  (noise_level : elt) (g : gen_state) (N B : nat) :
  shape obj_vals = [N; B] -> tensor_wf obj_vals -> 1 <= B ->
  corrupt_obj_vals obj_vals "noiseless" noise_level g = (Ok obj_vals, g)
  /\ exists responses,
      generate_responses obj_vals "noiseless" noise_level g
      = (Ok responses, g)
      /\ shape responses = [N] /\ tensor_wf responses
      /\ forall i, i < N ->
         exists k, nth_error (data responses) i = Some (Z.of_nat k)
                   /\ k < B
                   /\ first_greatest (block B i (data obj_vals)) k.
Proof.
  intros Hshape Hwf HB. split; [reflexivity|].
  unfold generate_responses, corrupt_obj_vals. simpl.
  unfold lift, torch_argmax. rewrite Hshape. simpl.
  replace (B =? 0) with false by (symmetry; apply Nat.eqb_neq; lia).
  eexists. split; [reflexivity|]. simpl. repeat split.
  - unfold tensor_wf. simpl. unfold range. now rewrite length_map, length_seq.
  - intros i Hi.
    assert (Hne : block B i (data obj_vals) <> []).
    { apply block_nonempty; trivial. rewrite Hwf, Hshape. simpl. nia. }
    exists (argmax_list (block B i (data obj_vals))). repeat split.
    + now rewrite nth_error_map_range by lia.
    + pose proof (argmax_list_lt _ Hne) as Hlt.
      rewrite length_block in Hlt; trivial.
      rewrite Hwf, Hshape. simpl. nia.
    + apply (argmax_list_first_greatest _ Hne).
    + apply (argmax_list_first_greatest _ Hne).
Qed.

Lemma generate_responses_noiseless_witness :
  corrupt_obj_vals (mkTensor [2; 3] [1; 5; 5; 7; 2; 3]%Z false) "noiseless"
    0%Z (gen_at 7)
  = (Ok (mkTensor [2; 3] [1; 5; 5; 7; 2; 3]%Z false), gen_at 7)
  /\ exists responses,
      generate_responses (mkTensor [2; 3] [1; 5; 5; 7; 2; 3]%Z false)
        "noiseless" 0%Z (gen_at 7)
      = (Ok responses, gen_at 7)
      /\ shape responses = [2] /\ tensor_wf responses
      /\ forall i, i < 2 ->
         exists k, nth_error (data responses) i = Some (Z.of_nat k)
                   /\ k < 3
                   /\ first_greatest (block 3 i [1; 5; 5; 7; 2; 3]%Z) k.
Proof.
  apply (generate_responses_noiseless
           (mkTensor [2; 3] [1; 5; 5; 7; 2; 3]%Z false) 0%Z (gen_at 7) 2 3).
  - reflexivity.
  - reflexivity.
  - lia.
Defined.

Example generate_initial_data_noiseless :
  generate_initial_data 2 3 1 (pure_objective sum_squares_objective)
    "noiseless" 0%Z (Some 42%Z) (gen_at 7)
  = (Ok (mkTensor [2; 3; 1] [42; 27; 264; 753; 806; 735]%Z false,
         mkTensor [2; 3] [1764; 729; 69696; 567009; 649636; 540225]%Z false,
         mkTensor [2] [2; 1]%Z false),
     gen_at 7).
Proof. vm_compute. reflexivity. Qed.

Example generate_responses_ties :
  generate_responses (mkTensor [2; 3] [1; 5; 5; 7; 2; 3]%Z false)
    "noiseless" 0%Z (gen_at 7)
  = (Ok (mkTensor [2] [1; 0]%Z false), gen_at 7).
Proof. reflexivity. Qed.

(** ** The array engine: sorting and indexing *)

Section Sort.

Context {elt : Type} {F : Float elt}.

Lemma insert_desc_Forall (P : elt * nat -> Prop) (x : elt * nat)
  (l : list (elt * nat)) :
  P x -> Forall P l -> Forall P (insert_desc x l).
Proof.
  intros Hx Hl. induction Hl as [|y l Hy Hl IH]; simpl.
  - now constructor.
  - destruct (float_ltb (fst x) (fst y)); repeat constructor; trivial.
Qed.

Lemma sort_desc_positions (l : list elt) :
  Forall (fun p => snd p < length l) (sort_desc l).
Proof.
  unfold sort_desc.
  assert (Hall : Forall (fun p : elt * nat => snd p < length l)
                   (combine l (seq 0 (length l)))).
  { apply Forall_forall. intros [x k] Hin. apply in_combine_r, in_seq in Hin.
    simpl. lia. }
  induction Hall as [|p ps Hp _ IH]; simpl.
  - constructor.
  - now apply insert_desc_Forall.
Qed.

(** The indices [torch.sort] returns for a vector of [n] entries, squeezed
    or not, are positions of that vector. *)
Lemma torch_sort_desc_indices (t : tensor elt) (n : nat) :
  shape t = [n] \/ shape t = [] ->
  length (data t) = n ->
  Forall (fun k => (0 <= k < Z.of_nat n)%Z) (data (snd (torch_sort_desc t))).
Proof.
  intros Hshape Hlen. subst n.
  assert (Hrow : Forall (fun k => (0 <= k < Z.of_nat (length (data t)))%Z)
                   (map (fun p : elt * nat => Z.of_nat (snd p))
                      (sort_desc (data t)))).
  { apply Forall_map. generalize (sort_desc_positions (data t)).
    apply Forall_impl. intros p Hp. lia. }
  unfold torch_sort_desc. destruct Hshape as [-> | ->]; simpl.
  - unfold block. simpl. now rewrite firstn_all, app_nil_r.
  - now rewrite app_nil_r.
Qed.

End Sort.

Lemma index_select0_in_range {A : Type} (t : tensor A) (idx : tensor Z)
  (n : nat) (rest : list nat) :
  shape t = n :: rest ->
  Forall (fun k => (0 <= k < Z.of_nat n)%Z) (data idx) ->
  index_select0 t idx
  = Ok (mkTensor (shape idx ++ rest)
          (flat_map (fun k => block (numel rest) (Z.to_nat k) (data t))
             (data idx))
          (requires_grad t)).
Proof.
  intros Hshape Hall. unfold index_select0. rewrite Hshape.
  replace (forallb _ (data idx)) with true.
  - do 2 f_equal. induction Hall as [|k ks Hk _ IH]; simpl; trivial.
    now rewrite IH, Z.mod_small.
  - symmetry. apply forallb_forall. rewrite Forall_forall in Hall.
    intros k Hk. specialize (Hall k Hk). apply andb_true_intro.
    split; [apply Z.leb_le | apply Z.ltb_lt]; lia.
Qed.

Lemma forallb_indexed {A : Type} (f : nat * A -> bool) (l : list A) (a : nat) :
  forallb f (combine (seq a (length l)) l) = true
  <-> forall i x, nth_error l i = Some x -> f (a + i, x) = true.
Proof.
  revert a. induction l as [|y l IH]; intros a; simpl.
  - split; trivial. intros _ [|i] x Hx; discriminate.
  - rewrite andb_true_iff, IH. split.
    + intros [Hy Hl] [|i] x Hx; simpl in Hx.
      * injection Hx as <-. now rewrite Nat.add_0_r.
      * rewrite <- Nat.add_succ_comm. now apply Hl.
    + intros H. split.
      * rewrite <- (Nat.add_0_r a). now apply H.
      * intros i x Hx. rewrite Nat.add_succ_comm. now apply H.
Qed.

(** ** Candidate optimizer *)

Lemma bind_ok {S A B : Type} (c : M S A) (k : A -> M S B) (s s' : S) (a : A) :
  c s = (Ok a, s') -> bind c k s = k a s'.
Proof. intros H. simpl. now rewrite H. Qed.

Section CandidateFacts.

Context {elt : Type} {F : Float elt}.

Lemma within_bounds_block (bounds t : tensor elt) (b d q k : nat)
  (s : list nat) (rg : bool) :
  shape bounds = [b; d] ->
  within_bounds bounds t = true ->
  within_bounds bounds (mkTensor s (block (q * d) k (data t)) rg) = true.
Proof.
  unfold within_bounds. intros ->. simpl.
  rewrite !forallb_indexed. intros Hall i x Hx.
  rewrite nth_error_block in Hx. destruct (i <? q * d); [|discriminate].
  specialize (Hall _ _ Hx). simpl in *.
  replace (k * (q * d) + i) with (i + k * q * d) in Hall by lia.
  now rewrite Nat.Div0.mod_add in Hall.
Qed.

Lemma get_best_candidates_slab (candidates values : tensor elt) (n : nat)
  (inner : list nat) :
  shape candidates = n :: inner ->
  shape values = [n] -> tensor_wf values -> 1 <= n ->
  get_best_candidates candidates values
  = Ok (slab candidates inner (argmax_list (data values)))
  /\ argmax_list (data values) < n
  /\ first_greatest (data values) (argmax_list (data values)).
Proof.
  intros Hc Hv Hwf Hn. unfold tensor_wf in Hwf. rewrite Hv in Hwf.
  simpl in Hwf. rewrite Nat.mul_1_r in Hwf.
  assert (Hne : data values <> []).
  { intros E. rewrite E in Hwf. simpl in Hwf. lia. }
  pose proof (argmax_list_lt _ Hne) as Hlt. rewrite Hwf in Hlt.
  split; [|split; [exact Hlt | exact (argmax_list_first_greatest _ Hne)]].
  unfold get_best_candidates, torch_argmax. rewrite Hv. simpl.
  rewrite Nat.mul_1_r.
  replace (n =? 0) with false by (symmetry; apply Nat.eqb_neq; lia).
  simpl. unfold block at 1. simpl. rewrite <- Hwf at 1. rewrite firstn_all.
  rewrite (index_select0_in_range candidates _ n inner Hc).
  - simpl. unfold slab. now rewrite app_nil_r, Nat2Z.id.
  - simpl. repeat constructor; lia.
Qed.

End CandidateFacts.

(** C9.  For bounds of shape (2, input_dim), input_dim at least one so
    that a restart is asked for, whenever the multi-start optimizer, called
    with num_restarts = 4 * input_dim, raw_samples =
    120 * input_dim and return_best_only = False, returns one candidate
    batch per restart within the bounds and one value per restart, the
    function returns the candidate batch of the first greatest value: a
    tensor of shape (q, input_dim), within the bounds and detached; all
    restart results are kept and printed, and nothing but the output is
    changed after the optimizer's call. *)
Theorem optimize_acqf_and_get_suggested_query_best {elt : Type}
  {F : Float elt} {O : Optimizer elt} (acq_func : acqf_t)
  (bounds : tensor elt) (batch_size : Z)
  (batch_limit init_batch_limit : option Z)
  (w w1 : world optimizer_state elt) (candidates acq_values : tensor elt)
  (d : nat) :
  shape bounds = [2; d] -> 1 <= d ->
  optimize_acqf
    (mkArgs acq_func bounds batch_size (4 * d) (120 * d)
       (mkOptions batch_limit init_batch_limit 100 false "L-BFGS-B") false) w
  = (Ok (candidates, acq_values), w1) ->
  shape candidates = [4 * d; Z.to_nat batch_size; d] ->
  shape acq_values = [4 * d] -> tensor_wf acq_values ->
  within_bounds bounds candidates = true ->
  exists new_x w2 best picked,
    optimize_acqf_and_get_suggested_query acq_func bounds batch_size
      batch_limit init_batch_limit w = (Ok new_x, w2)
    /\ shape new_x = [Z.to_nat batch_size; d]
    /\ within_bounds bounds new_x = true
    /\ requires_grad new_x = false
    /\ best < 4 * d
    /\ first_greatest (data acq_values) best
    /\ data new_x = block (Z.to_nat batch_size * d) best (data candidates)
    /\ lib_state w2 = lib_state w1
    /\ stdout w2
       = stdout w1 ++
         [PStr "Acquisition values:";
          PTensor (fst (torch_sort_desc (squeeze acq_values)));
          PStr "Candidates:";
          PTensor (squeeze picked);
          PTensor (squeeze (detach candidates))].
Proof.
  intros Hb Hd Hopt Hc Hv Hvw Hin.
  destruct (get_best_candidates_slab (detach candidates) acq_values (4 * d)
              [Z.to_nat batch_size; d] Hc Hv Hvw ltac:(lia))
    as (Hbest & Hlt & Hfirst).
  assert (Hidx : Forall (fun k => (0 <= k < Z.of_nat (4 * d))%Z)
                   (data (snd (torch_sort_desc (squeeze acq_values))))).
  { apply torch_sort_desc_indices.
    - unfold squeeze. rewrite Hv. cbn [shape filter].
      destruct (negb (4 * d =? 1)); auto.
    - unfold tensor_wf in Hvw. rewrite Hv in Hvw. simpl in *. lia. }
  unfold optimize_acqf_and_get_suggested_query. rewrite Hb.
  rewrite (bind_ok _ _ w w1 (candidates, acq_values) Hopt).
  destruct (torch_sort_desc (squeeze acq_values)) as [sorted indices].
  cbn [snd fst] in *.
  rewrite (index_select0_in_range (detach candidates) indices (4 * d)
             [Z.to_nat batch_size; d] Hc Hidx).
  unfold print, lift. cbn [bind ret Monad_M lib_state stdout]. rewrite Hbest.
  exists (slab (detach candidates) [Z.to_nat batch_size; d]
            (argmax_list (data acq_values))).
  eexists. exists (argmax_list (data acq_values)). eexists.
  split; [reflexivity|].
  split; [reflexivity|].
  split.
  { unfold slab, detach. cbn [data numel fold_right]. rewrite Nat.mul_1_r.
    now apply (within_bounds_block bounds candidates 2). }
  split; [reflexivity|].
  split; [exact Hlt|].
  split; [exact Hfirst|].
  split.
  { unfold slab, detach. cbn [data numel fold_right].
    now rewrite Nat.mul_1_r. }
  split; [reflexivity|].
  cbn [stdout]. now rewrite <- !app_assoc.
Qed.

Example optimize_acqf_and_get_suggested_query_run :
  optimize_acqf_and_get_suggested_query constant_acqf bounds_0_10 2 (Some 4%Z)
    (Some 20%Z) quiet
  = (Ok (mkTensor [2; 1] [1; 1]%Z false),
     mkWorld [(4, 120, false)]
       [PStr "Acquisition values:";
        PTensor (mkTensor [4] [3; 2; 1; 0]%Z true);
        PStr "Candidates:";
        PTensor (mkTensor [4; 2] [1; 1; 2; 2; 3; 3; 0; 0]%Z false);
        PTensor (mkTensor [4; 2] [0; 0; 1; 1; 2; 2; 3; 3]%Z false)]).
Proof. reflexivity. Qed.

Lemma optimize_acqf_and_get_suggested_query_best_witness :
  exists new_x w2 best picked,
    optimize_acqf_and_get_suggested_query constant_acqf bounds_0_10 2 (Some 4%Z)
      (Some 20%Z) quiet = (Ok new_x, w2)
    /\ shape new_x = [Z.to_nat 2; 1]
    /\ within_bounds bounds_0_10 new_x = true
    /\ requires_grad new_x = false
    /\ best < 4 * 1
    /\ first_greatest [0; 3; 2; 1]%Z best
    /\ data new_x = block (Z.to_nat 2 * 1) best [0; 0; 1; 1; 2; 2; 3; 3]%Z
    /\ lib_state w2 = lib_state called
    /\ stdout w2
       = stdout called ++
         [PStr "Acquisition values:";
          PTensor (fst (torch_sort_desc
                          (squeeze (mkTensor [4] [0; 3; 2; 1]%Z true))));
          PStr "Candidates:";
          PTensor (squeeze picked);
          PTensor (squeeze
                     (detach (mkTensor [4; 2; 1]
                                [0; 0; 1; 1; 2; 2; 3; 3]%Z true)))].
Proof.
  apply (optimize_acqf_and_get_suggested_query_best constant_acqf
           bounds_0_10 2
           (Some 4%Z) (Some 20%Z) quiet called
           (mkTensor [4; 2; 1] [0; 0; 1; 1; 2; 2; 3; 3]%Z true)
           (mkTensor [4] [0; 3; 2; 1]%Z true) 1).
  - reflexivity.
  - lia.
  - reflexivity.
  - reflexivity.
  - reflexivity.
  - reflexivity.
  - reflexivity.
Defined.

(** * Further properties of [src/utils.py] *)

(** ** Comparison-data encoder: error and edge behaviour *)

(** With fewer responses than queries the encoder stops at the first query
    without a response: the lookup [responses[i]] raises. *)
Theorem encoder_too_few_responses {elt : Type} (queries : tensor elt)
  (responses : list Z) (N B d : nat) (rest : list nat) :
  shape queries = N :: B :: d :: rest ->
  length responses < N ->
  training_data_for_pairwise_gp queries responses = Err IndexError.
Proof.
  intros Hshape Hlen. unfold training_data_for_pairwise_gp. rewrite Hshape.
  unfold range.
  now rewrite (encoder_loops_short queries N B d rest Hshape responses N
                 0 ([], [])) by lia.
Qed.

Lemma encoder_too_few_responses_witness :
  training_data_for_pairwise_gp queries_2x3 [1%Z] = Err IndexError.
Proof.
  apply (encoder_too_few_responses queries_2x3 [1%Z] 2 3 1 []).
  - reflexivity.
  - simpl. lia.
Defined.

Lemma encoder_query_no_items {elt : Type} (queries : tensor elt)
  (responses : list Z) (len : nat) :
  forall i0 acc, i0 + len <= length responses ->
  for_each (seq i0 len) (encoder_query queries responses 0) acc = Ok acc.
Proof.
  induction len as [|len IH]; intros i0 acc Hi; simpl; trivial.
  unfold encoder_query at 1.
  destruct (nth_error responses i0) as [ri|] eqn:Hr.
  - simpl. apply IH. lia.
  - apply nth_error_None in Hr. lia.
Qed.

(** A batch without queries, or with queries without items, is rejected:
    nothing is appended and the concatenation of the empty list of points
    raises. *)
Theorem encoder_empty_batch {elt : Type} (queries : tensor elt)
  (responses : list Z) (N B : nat) (tl : list nat) :
  shape queries = N :: B :: tl ->
  N = 0 \/ (B = 0 /\ N <= length responses) ->
  training_data_for_pairwise_gp queries responses = Err RuntimeError.
Proof.
  intros Hshape [-> | [-> Hlen]]; unfold training_data_for_pairwise_gp;
    rewrite Hshape.
  - reflexivity.
  - unfold range. now rewrite encoder_query_no_items by lia.
Qed.

Lemma encoder_empty_batch_witness :
  training_data_for_pairwise_gp (mkTensor [2; 0; 1] (@nil Z) false) [0; 0]%Z
  = Err RuntimeError.
Proof.
  apply (encoder_empty_batch (mkTensor [2; 0; 1] (@nil Z) false) [0; 0]%Z
           2 0 [1]).
  - reflexivity.
  - right. split; [reflexivity | simpl; lia].
Defined.

(** ** Comparison-data encoder: responses are not checked *)

Lemma length_query_pairs_any (B i : nat) (r : Z) :
  length (query_pairs B i r)
  = if ((0 <=? r) && (r <? Z.of_nat B))%Z then B - 1 else B.
Proof.
  unfold query_pairs, range. now rewrite length_map, length_filter_skip.
Qed.

Lemma comparison_pairs_losers (N B : nat) (responses : list Z) :
  Forall (fun p => fst p <> snd p
                   /\ (0 <= snd p < Z.of_nat (N * B))%Z)
    (comparison_pairs N B responses).
Proof.
  apply Forall_forall. intros p Hp.
  unfold comparison_pairs, query_pairs, range in Hp.
  apply in_flat_map in Hp. destruct Hp as (i & Hi & Hp).
  apply in_map_iff in Hp. destruct Hp as (j & <- & Hj).
  apply filter_In in Hj. destruct Hj as (Hj & Hne).
  apply in_seq in Hi. apply in_seq in Hj.
  destruct (Z.eqb_spec (Z.of_nat j) (nth i responses 0%Z)); [discriminate|].
  simpl. split; [lia | nia].
Qed.

Lemma length_comparison_pairs_any (N B : nat) (responses : list Z) :
  length (comparison_pairs N B responses)
  = list_sum
      (map (fun i =>
              if ((0 <=? nth i responses 0) &&
                  (nth i responses 0 <? Z.of_nat B))%Z
              then B - 1 else B) (range N)).
Proof.
  unfold comparison_pairs. rewrite length_flat_map. f_equal.
  apply map_ext. intros i. apply length_query_pairs_any.
Qed.

Lemma comparison_pairs_nonempty (N B : nat) (responses : list Z) :
  1 <= N -> 2 <= B -> comparison_pairs N B responses <> [].
Proof.
  intros HN HB E.
  pose proof (length_comparison_pairs_any N B responses) as Hcount.
  rewrite E in Hcount. simpl in Hcount.
  destruct N as [|N]; [lia|]. unfold range in Hcount. simpl in Hcount.
  destruct (_ && _)%bool in Hcount; lia.
Qed.

(** The encoder's result for a batch of at least one query and two items
    per query, whatever the responses. *)
Lemma encoder_run {elt : Type} (queries : tensor elt) (responses : list Z)
  (N B d : nat) (rest : list nat) :
  shape queries = N :: B :: d :: rest -> tensor_wf queries ->
  1 <= N -> 2 <= B -> N <= length responses ->
  exists rg,
    training_data_for_pairwise_gp queries responses
    = Ok (mkTensor (N * B :: d :: rest) (data queries) rg,
          mkTensor [length (comparison_pairs N B responses); 2]
            (pair_rows (comparison_pairs N B responses)) false).
Proof.
  intros Hshape Hwf HN HB Hlen.
  pose proof (length_datapoints queries N B d rest) as Hdl.
  unfold training_data_for_pairwise_gp. rewrite Hshape.
  rewrite (encoder_loops queries N B d rest Hshape) by lia. simpl.
  rewrite (torch_cat_rows (d :: rest)).
  2:{ intros E. rewrite E in Hdl. simpl in Hdl. nia. }
  2:{ apply Forall_flat_map, Forall_forall. intros i _.
      apply query_points_shape. }
  simpl.
  rewrite (pair_tensors_cat _ (comparison_pairs_nonempty N B responses HN HB)).
  simpl. eexists.
  now rewrite Hdl, (datapoints_data queries N B d rest Hshape Hwf).
Qed.

(** For a batch of at least one query and two items per query and any
    64-bit integers as responses, one per query, for which the row numbers
    [batch_size * i + responses[i]] stay within 64 bits (the code computes
    them in the responses' type), the encoder returns: the datapoints are the
    points of the batch in their order, whatever the responses; every pair's
    loser is a row of datapoints other than the pair's winner; a query whose
    response names none of its items contributes a pair for each of its [B]
    items, the others [B - 1]. *)
Theorem encoder_unchecked_responses {elt : Type} (queries : tensor elt)
  (responses : list Z) (N B d : nat) (rest : list nat) :
  shape queries = N :: B :: d :: rest -> tensor_wf queries ->
  1 <= N -> 2 <= B -> N <= length responses ->
  (Z.of_nat (N * B) <= 2 ^ 63)%Z ->
  (forall i, i < N ->
     (- 2 ^ 63 <= nth i responses 0 < 2 ^ 63)%Z
     /\ (- 2 ^ 63 <= Z.of_nat (B * i) + nth i responses 0 < 2 ^ 63)%Z) ->
  exists datapoints comparisons,
    training_data_for_pairwise_gp queries responses
    = Ok (datapoints, comparisons)
    /\ shape datapoints = N * B :: d :: rest
    /\ data datapoints = data queries
    /\ shape comparisons = [length (comparison_pairs N B responses); 2]
    /\ data comparisons = pair_rows (comparison_pairs N B responses)
    /\ Forall (fun p => fst p <> snd p
                        /\ (0 <= snd p < Z.of_nat (N * B))%Z)
         (comparison_pairs N B responses)
    /\ length (comparison_pairs N B responses)
       = list_sum
           (map (fun i =>
                   if ((0 <=? nth i responses 0) &&
                       (nth i responses 0 <? Z.of_nat B))%Z
                   then B - 1 else B) (range N)).
Proof.
  intros Hshape Hwf HN HB Hlen _ _.
  destruct (encoder_run queries responses N B d rest Hshape Hwf HN HB Hlen)
    as [rg Hrun].
  do 2 eexists. split; [exact Hrun|]. simpl. repeat split.
  - apply comparison_pairs_losers.
  - apply length_comparison_pairs_any.
Qed.

Lemma encoder_unchecked_responses_witness :
  exists datapoints comparisons,
    training_data_for_pairwise_gp queries_2x3 [7; -1]%Z
    = Ok (datapoints, comparisons)
    /\ shape datapoints = [2 * 3; 1]
    /\ data datapoints = data queries_2x3
    /\ shape comparisons = [length (comparison_pairs 2 3 [7; -1]%Z); 2]
    /\ data comparisons = pair_rows (comparison_pairs 2 3 [7; -1]%Z)
    /\ Forall (fun p => fst p <> snd p
                        /\ (0 <= snd p < Z.of_nat (2 * 3))%Z)
         (comparison_pairs 2 3 [7; -1]%Z)
    /\ length (comparison_pairs 2 3 [7; -1]%Z)
       = list_sum
           (map (fun i =>
                   if ((0 <=? nth i [7; -1] 0) &&
                       (nth i [7; -1] 0 <? Z.of_nat 3))%Z
                   then 3 - 1 else 3) (range 2)).
Proof.
  apply (encoder_unchecked_responses queries_2x3 [7; -1]%Z 2 3 1 []).
  - reflexivity.
  - reflexivity.
  - lia.
  - lia.
  - simpl. lia.
  - vm_compute. discriminate.
  - intros [|[|i]] Hi; [vm_compute | vm_compute | lia];
      repeat split; discriminate.
Defined.

Example encoder_out_of_range_responses :
  training_data_for_pairwise_gp queries_2x3 [7; -1]%Z
  = Ok (mkTensor [6; 1] [10; 11; 12; 20; 21; 22]%Z false,
        mkTensor [6; 2] [7; 0; 7; 1; 7; 2; 2; 3; 2; 4; 2; 5]%Z false).
Proof. reflexivity. Qed.

(** ** Response simulator: what it returns *)

Section ResponseFacts.

Context {elt : Type} {F : Float elt}.

Lemma argmax_list_block_lt (B k : nat) (l : list elt) :
  1 <= B -> argmax_list (block B k l) < B.
Proof.
  intros HB. destruct (block B k l) as [|x l'] eqn:E; [simpl; lia|].
  assert (Hne : block B k l <> []) by (rewrite E; discriminate).
  pose proof (argmax_list_lt _ Hne) as Hlt. rewrite E in *.
  assert (length (block B k l) <= B)
    by (unfold block; rewrite length_firstn; lia).
  rewrite E in *. lia.
Qed.

Lemma torch_argmax_rows (t : tensor elt) (N B : nat) (r : tensor Z) :
  shape t = [N; B] -> torch_argmax t = Ok r ->
  1 <= B
  /\ r = mkTensor [N]
           (map (fun k => Z.of_nat (argmax_list (block B k (data t))))
              (range N)) false.
Proof.
  intros Hshape. unfold torch_argmax. rewrite Hshape. simpl.
  destruct (Nat.eqb_spec B 0) as [->|HB]; [discriminate|].
  intros H. injection H as <-. split; [lia|]. now rewrite Nat.mul_1_r.
Qed.

Lemma tensor_add_shape (a b c : tensor elt) :
  tensor_add a b = Ok c -> shape c = shape a.
Proof.
  unfold tensor_add. destruct (shape_eqb _ _); [|discriminate].
  intros H. now injection H as <-.
Qed.

Context {G : Generator elt} {D : Distributions elt}.

Lemma corrupt_obj_vals_shape (obj_vals : tensor elt) (noise_type : string)
  (noise_level : elt) (g g' : gen_state) (c : tensor elt) :
  corrupt_obj_vals obj_vals noise_type noise_level g = (Ok c, g') ->
  shape c = shape obj_vals.
Proof.
  unfold corrupt_obj_vals. simpl.
  destruct (String.eqb noise_type "noiseless").
  { simpl. intros H. now injection H as <- _. }
  destruct (String.eqb noise_type "probit").
  { destruct (Normal_sample _ _ _ g) as [[noise|e] g1]; [|discriminate].
    unfold lift.
    destruct (tensor_add obj_vals noise) as [s|e] eqn:Hadd; [|discriminate].
    simpl. intros H. injection H as <- _. now apply tensor_add_shape in Hadd. }
  destruct (String.eqb noise_type "logit").
  { destruct (Gumbel_sample _ _ _ g) as [[noise|e] g1]; [|discriminate].
    unfold lift.
    destruct (tensor_add obj_vals noise) as [s|e] eqn:Hadd; [|discriminate].
    simpl. intros H. injection H as <- _. now apply tensor_add_shape in Hadd. }
  simpl. discriminate.
Qed.

End ResponseFacts.

(** Whatever the noise type, the noise level and the samplers, a response
    array that [generate_responses] returns for objective values of shape
    (N, B) has one entry per query and every entry names an item: it lies in
    [0, B), which is what the encoder needs of it. *)
Theorem responses_are_item_indices {elt : Type} {F : Float elt}
  {G : Generator elt} {D : Distributions elt} (obj_vals : tensor elt)
  (noise_type : string) (noise_level : elt) (g g' : gen_state)
  (responses : tensor Z) (N B : nat) :
  shape obj_vals = [N; B] ->
  generate_responses obj_vals noise_type noise_level g = (Ok responses, g') ->
  shape responses = [N]
  /\ length (data responses) = N
  /\ Forall (fun r => (0 <= r < Z.of_nat B)%Z) (data responses).
Proof.
  intros Hshape. unfold generate_responses. simpl.
  destruct (corrupt_obj_vals obj_vals noise_type noise_level g)
    as [[c|e] g1] eqn:Hc; [|discriminate].
  apply corrupt_obj_vals_shape in Hc. rewrite Hshape in Hc.
  unfold lift. destruct (torch_argmax c) as [r|e] eqn:Hr; [|discriminate].
  simpl. intros H. injection H as <- _.
  destruct (torch_argmax_rows c N B r Hc Hr) as [HB ->]. simpl.
  repeat split.
  - unfold range. now rewrite length_map, length_seq.
  - apply Forall_map, Forall_forall. intros k _.
    pose proof (argmax_list_block_lt B k (data c) HB). lia.
Qed.

Lemma responses_are_item_indices_witness :
  shape (mkTensor [2] [2; 0]%Z false) = [2]
  /\ length (data (mkTensor [2] [2; 0]%Z false)) = 2
  /\ Forall (fun r => (0 <= r < Z.of_nat 3)%Z)
       (data (mkTensor [2] [2; 0]%Z false)).
Proof.
  apply (responses_are_item_indices
           (mkTensor [2; 3] [1; 5; 5; 7; 2; 3]%Z false) "probit" 2%Z
           (gen_at 7) (gen_after 220562521 6) (mkTensor [2] [2; 0]%Z false)
           2 3).
  - reflexivity.
  - vm_compute. reflexivity.
Defined.

(** ** Responses and encoder together *)

Lemma nth_map_range {A : Type} (f : nat -> A) (n k : nat) (dflt : A) :
  k < n -> nth k (map f (range n)) dflt = f k.
Proof.
  intros Hk. apply nth_error_nth. now apply nth_error_map_range.
Qed.

(** Pairs built from the first arg-max of every row: the value at the
    winner's position is not smaller than the value at the loser's. *)
Lemma argmax_pairs_not_smaller {elt : Type} {F : Float elt}
  (vals : list elt) (N B : nat) :
  length vals = N * B -> 1 <= B ->
  Forall (fun p =>
            exists x y,
              nth_error vals (Z.to_nat (fst p)) = Some x
              /\ nth_error vals (Z.to_nat (snd p)) = Some y
              /\ float_ltb x y = false)
    (comparison_pairs N B
       (map (fun k => Z.of_nat (argmax_list (block B k vals))) (range N))).
Proof.
  intros Hlen HB.
  set (best := fun k => argmax_list (block B k vals)).
  apply Forall_forall. intros p Hp.
  unfold comparison_pairs, query_pairs, range in Hp.
  apply in_flat_map in Hp. destruct Hp as (i & Hi & Hp).
  apply in_map_iff in Hp. destruct Hp as (j & <- & Hj).
  apply filter_In in Hj. destruct Hj as (Hj & _).
  apply in_seq in Hi. apply in_seq in Hj.
  rewrite nth_map_range by lia. simpl.
  assert (Hne : block B i vals <> []).
  { apply block_nonempty; [lia|]. rewrite Hlen. nia. }
  destruct (argmax_list_first_greatest _ Hne) as [(x & Hx & Hmax) _].
  fold (best i) in Hx.
  assert (Hbest : best i < B).
  { assert (Hb : best i < length (block B i vals))
      by (apply nth_error_Some; congruence).
    revert Hb. unfold block. rewrite length_firstn. lia. }
  assert (Hjv : exists y, nth_error (block B i vals) j = Some y).
  { destruct (nth_error (block B i vals) j) eqn:E; eauto.
    apply nth_error_None in E. rewrite length_block in E; [lia|].
    rewrite Hlen. nia. }
  destruct Hjv as [y Hy]. exists x, y.
  pose proof (Hmax j y Hy) as Hxy.
  rewrite nth_error_block in Hx, Hy.
  rewrite (proj2 (Nat.ltb_lt _ _) Hbest) in Hx.
  rewrite (proj2 (Nat.ltb_lt j B)) in Hy by lia.
  fold (best i).
  replace (Z.to_nat (Z.of_nat (i * B) + Z.of_nat (best i))) with (i * B + best i)
    by lia.
  rewrite Nat2Z.id. auto.
Qed.

(** Noiseless responses handed to the encoder: every comparison it returns
    names as winner a point whose objective value is not smaller than the
    loser's, the values being those at the pair's two rows of the objective
    values read query-major. *)
Theorem noiseless_winners_not_smaller {elt : Type} {F : Float elt}
  {G : Generator elt} {D : Distributions elt} (queries obj_vals : tensor elt)
  (noise_level : elt) (g : gen_state) (N B d : nat) :
  shape queries = [N; B; d] -> tensor_wf queries ->
  shape obj_vals = [N; B] -> tensor_wf obj_vals ->
  1 <= N -> 2 <= B ->
  exists responses datapoints comparisons,
    generate_responses obj_vals "noiseless" noise_level g = (Ok responses, g)
    /\ training_data_for_pairwise_gp queries (data responses)
       = Ok (datapoints, comparisons)
    /\ data comparisons
       = pair_rows (comparison_pairs N B (data responses))
    /\ Forall (fun p =>
                 exists x y,
                   nth_error (data obj_vals) (Z.to_nat (fst p)) = Some x
                   /\ nth_error (data obj_vals) (Z.to_nat (snd p)) = Some y
                   /\ float_ltb x y = false)
         (comparison_pairs N B (data responses)).
Proof.
  intros Hq Hqwf Hv Hvwf HN HB.
  set (best := fun k => argmax_list (block B k (data obj_vals))).
  exists (mkTensor [N] (map (fun k => Z.of_nat (best k)) (range N)) false).
  assert (Hlen : length (map (fun k => Z.of_nat (best k)) (range N)) = N)
    by (unfold range; now rewrite length_map, length_seq).
  destruct (encoder_run queries (map (fun k => Z.of_nat (best k)) (range N))
              N B d [] Hq Hqwf HN HB ltac:(lia)) as [rg Hrun].
  do 2 eexists. split; [|split; [exact Hrun|split; [reflexivity|]]].
  - unfold generate_responses, corrupt_obj_vals. simpl.
    unfold lift, torch_argmax. rewrite Hv. simpl.
    replace (B =? 0) with false by (symmetry; apply Nat.eqb_neq; lia).
    now rewrite Nat.mul_1_r.
  - simpl. apply argmax_pairs_not_smaller; [|lia].
    rewrite Hvwf, Hv. simpl. lia.
Qed.

Lemma noiseless_winners_not_smaller_witness :
  exists responses datapoints comparisons,
    generate_responses (mkTensor [2; 3] [1; 5; 5; 7; 2; 3]%Z false)
      "noiseless" 0%Z (gen_at 7) = (Ok responses, gen_at 7)
    /\ training_data_for_pairwise_gp queries_2x3 (data responses)
       = Ok (datapoints, comparisons)
    /\ data comparisons
       = pair_rows (comparison_pairs 2 3 (data responses))
    /\ Forall (fun p =>
                 exists x y,
                   nth_error [1; 5; 5; 7; 2; 3]%Z (Z.to_nat (fst p)) = Some x
                   /\ nth_error [1; 5; 5; 7; 2; 3]%Z (Z.to_nat (snd p))
                      = Some y
                   /\ float_ltb x y = false)
         (comparison_pairs 2 3 (data responses)).
Proof.
  apply (noiseless_winners_not_smaller queries_2x3
           (mkTensor [2; 3] [1; 5; 5; 7; 2; 3]%Z false) 0%Z (gen_at 7) 2 3 1).
  - reflexivity.
  - reflexivity.
  - reflexivity.
  - reflexivity.
  - lia.
  - lia.
Defined.

(** ** Objective evaluator: what it accepts *)

Lemma reshape_flatten {A : Type} (queries : tensor A) (N B d : nat) :
  shape queries = [N; B; d] ->
  reshape queries [N * B; d]
  = Ok (mkTensor [N * B; d] (data queries) (requires_grad queries)).
Proof.
  intros Hshape. unfold reshape. rewrite Hshape.
  replace (numel [N * B; d] =? numel [N; B; d]) with true; trivial.
  symmetry. apply Nat.eqb_eq. simpl. lia.
Qed.

Lemma get_obj_vals_run {elt : Type} (queries : tensor elt)
  (obj_func : tensor elt -> result (tensor elt)) (N B d : nat) :
  shape queries = [N; B; d] ->
  get_obj_vals queries obj_func
  = match obj_func (mkTensor [N * B; d] (data queries)
                      (requires_grad queries)) with
    | Ok u => if numel (shape u) =? N * B
              then Ok (mkTensor [N; B] (data u) (requires_grad u))
              else Err RuntimeError
    | Err e => Err e
    end.
Proof.
  intros Hshape. unfold get_obj_vals.
  rewrite Hshape, (reshape_flatten queries N B d Hshape). simpl.
  destruct (obj_func _) as [u|e]; trivial.
  unfold reshape. simpl. rewrite Nat.mul_1_r, (Nat.eqb_sym (N * B)).
  now destruct (numel (shape u) =? N * B).
Qed.

(** [get_obj_vals] calls the objective once, on the points of the batch in
    their order as an (N * B, d) tensor.  An exception of the objective
    comes out unchanged; a result of N * B entries, of whatever shape, is
    returned entry for entry as an (N, B) tensor; a result with another
    number of entries makes the final reshape raise. *)
Theorem get_obj_vals_accepts {elt : Type} (queries : tensor elt)
  (obj_func : tensor elt -> result (tensor elt)) (N B d : nat) :
  shape queries = [N; B; d] ->
  (forall e,
     obj_func (mkTensor [N * B; d] (data queries) (requires_grad queries))
     = Err e ->
     get_obj_vals queries obj_func = Err e)
  /\ (forall u,
        obj_func (mkTensor [N * B; d] (data queries) (requires_grad queries))
        = Ok u ->
        (numel (shape u) = N * B ->
         get_obj_vals queries obj_func
         = Ok (mkTensor [N; B] (data u) (requires_grad u)))
        /\ (numel (shape u) <> N * B ->
            get_obj_vals queries obj_func = Err RuntimeError)).
Proof.
  intros Hshape. rewrite (get_obj_vals_run queries obj_func N B d Hshape).
  split.
  - intros e ->. reflexivity.
  - intros u ->. split; intros Hn.
    + now rewrite (proj2 (Nat.eqb_eq _ _) Hn).
    + now rewrite (proj2 (Nat.eqb_neq _ _) Hn).
Qed.

Lemma get_obj_vals_accepts_witness :
  (forall e,
     column_objective
       (mkTensor [2 * 3; 1] (data queries_2x3) (requires_grad queries_2x3))
     = Err e ->
     get_obj_vals queries_2x3 column_objective = Err e)
  /\ (forall u,
        column_objective
          (mkTensor [2 * 3; 1] (data queries_2x3) (requires_grad queries_2x3))
        = Ok u ->
        (numel (shape u) = 2 * 3 ->
         get_obj_vals queries_2x3 column_objective
         = Ok (mkTensor [2; 3] (data u) (requires_grad u)))
        /\ (numel (shape u) <> 2 * 3 ->
            get_obj_vals queries_2x3 column_objective = Err RuntimeError)).
Proof.
  apply (get_obj_vals_accepts queries_2x3 column_objective 2 3 1).
  reflexivity.
Defined.

Example get_obj_vals_column_result :
  get_obj_vals queries_2x3 column_objective
  = Ok (mkTensor [2; 3] [10; 11; 12; 20; 21; 22]%Z false).
Proof. reflexivity. Qed.

Example get_obj_vals_short_result :
  get_obj_vals queries_2x3 (fun t => Ok (mkTensor [2] [1; 2]%Z false))
  = Err RuntimeError.
Proof. reflexivity. Qed.

(** ** Query sampler: seeds and failures *)

(** A seeded call that fails in [torch.rand] does not reach the restoration:
    with a seed that [torch.manual_seed] accepts and a negative size the
    call raises and leaves the global generator in the state the seed
    installed, the state the caller had is lost. *)
Theorem seeded_call_failure_leaves_seed {elt : Type} {G : Generator elt}
  (n b d seed : Z) (g : gen_state) :
  seed_in_range seed -> (n < 0 \/ b < 0 \/ d < 0)%Z ->
  generate_random_queries n b d (Some seed) g
  = (Err RuntimeError, seed_state seed).
Proof.
  intros Hs Hneg. unfold generate_random_queries. simpl.
  unfold get_rng_state, get. rewrite (manual_seed_in_range seed g Hs).
  rewrite torch_rand_negative; trivial.
  destruct Hneg as [H|[H|H]]; [left | right; left | do 2 right; left];
    exact H.
Qed.

Lemma seeded_call_failure_leaves_seed_witness :
  generate_random_queries 2 (-3) 1 (Some 42%Z) (gen_at 7)
  = (Err RuntimeError, seed_state 42).
Proof.
  apply (seeded_call_failure_leaves_seed 2 (-3) 1 42 (gen_at 7)).
  - unfold seed_in_range. lia.
  - lia.
Defined.

(** The batch of a seeded call is the batch an unseeded call returns when
    the global generator is in the state the seed installs. *)
Theorem seeded_call_as_unseeded {elt : Type} {G : Generator elt}
  (n b d seed : Z) (g : gen_state) :
  seed_in_range seed ->
  fst (generate_random_queries n b d (Some seed) g)
  = fst (generate_random_queries n b d None (seed_state seed)).
Proof.
  intros Hs. unfold generate_random_queries. simpl.
  unfold get_rng_state, get, set_rng_state, put.
  rewrite (manual_seed_in_range seed g Hs).
  now destruct (torch_rand [n; b; d] (seed_state seed)) as [[t|e] g'].
Qed.

Lemma seeded_call_as_unseeded_witness :
  fst (generate_random_queries 2 3 1 (Some 42%Z) (gen_at 7))
  = fst (generate_random_queries 2 3 1 None (seed_state 42)).
Proof.
  apply (seeded_call_as_unseeded 2 3 1 42 (gen_at 7)).
  unfold seed_in_range. lia.
Defined.

(** The same loss of the caller's state for sizes without a negative one:
    when [torch.rand] cannot allocate the batch of a seeded call, the call
    raises and leaves the global generator in the state the seed
    installed. *)
Theorem seeded_call_unallocatable_leaves_seed {elt : Type}
  {G : Generator elt} (n b d seed : Z) (g : gen_state) :
  seed_in_range seed -> allocatable [n; b; d] = false ->
  generate_random_queries n b d (Some seed) g
  = (Err RuntimeError, seed_state seed).
Proof.
  intros Hs Ha. apply seeded_call_rand_raises; trivial.
  now apply torch_rand_unallocatable.
Qed.

Lemma seeded_call_unallocatable_leaves_seed_witness :
  generate_random_queries (2 ^ 62) 2 2 (Some 5%Z) (gen_at 7)
  = (Err RuntimeError, seed_state 5).
Proof.
  apply (seeded_call_unallocatable_leaves_seed (2 ^ 62) 2 2 5 (gen_at 7)).
  - unfold seed_in_range. lia.
  - vm_compute. reflexivity.
Defined.

(** ** Initial data: the three stages together *)

Lemma block_map_range {A : Type} (f : nat -> A) (N B i : nat) :
  i < N ->
  block B i (map f (range (N * B))) = map (fun j => f (i * B + j)) (range B).
Proof.
  intros Hi. apply nth_error_ext. intros k.
  rewrite nth_error_block.
  destruct (Nat.ltb_spec k B) as [Hk|Hk].
  - now rewrite !nth_error_map_range by nia.
  - symmetry. apply nth_error_None. unfold range.
    now rewrite length_map, length_seq.
Qed.

Section InitialData.

Context {elt : Type} {F : Float elt} {G : Generator elt}
  {D : Distributions elt}.

(** A seeded call that returns has put the caller's state back. *)
Lemma seeded_call_ok_restores (n b d seed : Z) (g g' : gen_state)
  (queries : tensor elt) :
  generate_random_queries n b d (Some seed) g = (Ok queries, g') ->
  g' = g
  /\ queries = mkTensor [Z.to_nat n; Z.to_nat b; Z.to_nat d]
                 (fst (draw (Z.to_nat n * (Z.to_nat b * (Z.to_nat d * 1)))
                         (seed_state seed))) false.
Proof.
  intros Hrun.
  destruct (Z_le_dec (- 2 ^ 63) seed) as [Hlo|Hlo];
    [destruct (Z_le_dec seed (2 ^ 64 - 1)) as [Hhi|Hhi]|].
  2,3: rewrite seeded_call_bad_seed in Hrun
    by (unfold seed_in_range; lia); discriminate.
  assert (Hs : seed_in_range seed) by (unfold seed_in_range; lia).
  destruct (Z_lt_dec n 0) as [Hn|Hn];
    [|destruct (Z_lt_dec b 0) as [Hb|Hb];
      [|destruct (Z_lt_dec d 0) as [Hd|Hd];
        [|destruct (allocatable [n; b; d]) eqn:Ha]]].
  - rewrite seeded_call_rand_raises in Hrun; trivial; [discriminate|].
    apply torch_rand_negative. left. exact Hn.
  - rewrite seeded_call_rand_raises in Hrun; trivial; [discriminate|].
    apply torch_rand_negative. right; left. exact Hb.
  - rewrite seeded_call_rand_raises in Hrun; trivial; [discriminate|].
    apply torch_rand_negative. do 2 right; left. exact Hd.
  - rewrite seeded_call_restores in Hrun by (trivial; lia).
    injection Hrun as <- <-. split; reflexivity.
  - rewrite seeded_call_rand_raises in Hrun; trivial; [discriminate|].
    now apply torch_rand_unallocatable.
Qed.

(** On an objective that acts on no state the two embeddings of
    [get_obj_vals] agree. *)
Lemma get_obj_vals_effectful_pure (queries : tensor elt)
  (obj_func : tensor elt -> result (tensor elt)) (g : gen_state) :
  get_obj_vals_effectful queries (pure_objective obj_func) g
  = (get_obj_vals queries obj_func, g).
Proof.
  unfold get_obj_vals_effectful, get_obj_vals, pure_objective.
  destruct (shape queries) as [|n [|b [|d rest]]]; trivial.
  simpl. unfold lift.
  destruct (reshape queries [n * b; d]) as [q|e]; trivial.
  destruct (obj_func q) as [v|e]; trivial.
  now destruct (reshape v [n; b]).
Qed.

End InitialData.

(** The seed of [generate_initial_data] covers the queries only: when the
    seeded sampling succeeds, and the objective succeeds when called in the
    state the caller had, which was put back after the queries were drawn,
    then the responses, and the generator state the call ends in, are those
    [generate_responses] gives from the state the objective left. *)
Theorem initial_data_noise_from_caller_state {elt : Type} {F : Float elt}
  {G : Generator elt} {D : Distributions elt} (n b d seed : Z)
  (obj_func : tensor elt -> M gen_state (tensor elt)) (noise_type : string)
  (noise_level : elt) (g g' g1 : gen_state) (queries obj_vals : tensor elt) :
  generate_random_queries n b d (Some seed) g = (Ok queries, g') ->
  get_obj_vals_effectful queries obj_func g = (Ok obj_vals, g1) ->
  generate_initial_data n b d obj_func noise_type noise_level (Some seed) g
  = (match fst (generate_responses obj_vals noise_type noise_level g1) with
     | Ok responses => Ok (queries, obj_vals, responses)
     | Err e => Err e
     end,
     snd (generate_responses obj_vals noise_type noise_level g1)).
Proof.
  intros Hq Hv.
  destruct (seeded_call_ok_restores n b d seed g g' queries Hq) as [-> _].
  unfold generate_initial_data.
  rewrite (bind_ok _ _ g g queries Hq).
  rewrite (bind_ok _ _ g g1 obj_vals Hv).
  simpl.
  now destruct (generate_responses obj_vals noise_type noise_level g1)
    as [[r|e] g2].
Qed.

Lemma initial_data_noise_from_caller_state_witness :
  generate_initial_data 2 3 1 noisy_objective "probit" 2%Z (Some 42%Z)
    (gen_at 7)
  = (match fst (generate_responses
                  (mkTensor [2; 3] [1771; 845; 70029; 567947; 650207; 540865]%Z false)
                  "probit" 2%Z (gen_after 220562521 6)) with
     | Ok responses =>
         Ok (mkTensor [2; 3; 1] [42; 27; 264; 753; 806; 735]%Z false,
             mkTensor [2; 3] [1771; 845; 70029; 567947; 650207; 540865]%Z false,
             responses)
     | Err e => Err e
     end,
     snd (generate_responses
            (mkTensor [2; 3] [1771; 845; 70029; 567947; 650207; 540865]%Z false)
            "probit" 2%Z (gen_after 220562521 6))).
Proof.
  apply (initial_data_noise_from_caller_state 2 3 1 42 noisy_objective
           "probit" 2%Z (gen_at 7) (gen_at 7)).
  - vm_compute. reflexivity.
  - vm_compute. reflexivity.
Defined.

(** Two seeded calls with the same seed and noise: the noise is drawn from
    where the global generator stands, so the responses can differ. *)
Example initial_data_seeded_responses_differ :
  fst (generate_initial_data 1 2 1 (pure_objective sum_squares_objective)
         "probit" 1000%Z (Some 42%Z) (gen_at 7))
  = Ok (mkTensor [1; 2; 1] [42; 27]%Z false,
        mkTensor [1; 2] [1764; 729]%Z false,
        mkTensor [1] [1%Z] false)
  /\ fst (generate_initial_data 1 2 1 (pure_objective sum_squares_objective)
            "probit" 1000%Z (Some 42%Z) (gen_at 999))
     = Ok (mkTensor [1; 2; 1] [42; 27]%Z false,
           mkTensor [1; 2] [1764; 729]%Z false,
           mkTensor [1] [0%Z] false).
Proof. split; vm_compute; reflexivity. Qed.

(** With a seed that [torch.manual_seed] accepts, positive sizes of a batch
    that [torch.rand] can allocate, an objective that applies a per-point
    function [g0] to every row and leaves the generator alone, and no noise,
    [generate_initial_data] returns the same queries, objective values and
    responses from whatever state the global generator is in and leaves that
    state as it was; the shapes are (N, B, d), (N, B) and (N,), and the
    response of query i is the first of its items with a greatest value of
    [g0]. *)
Theorem initial_data_noiseless_seeded {elt : Type} {F : Float elt}
  {G : Generator elt} {D : Distributions elt} (n b d seed : Z)
  (obj_func : tensor elt -> M gen_state (tensor elt)) (g0 : list elt -> elt)
  (noise_level : elt) (g1 g2 : gen_state) :
  (0 < n)%Z -> (0 < b)%Z -> (0 < d)%Z ->
  allocatable [n; b; d] = true -> seed_in_range seed ->
  (forall t m, shape t = [m; Z.to_nat d] ->
     exists v, (forall g, obj_func t g = (Ok v, g)) /\ shape v = [m]
               /\ data v = map (fun k => g0 (block (Z.to_nat d) k (data t)))
                             (range m)) ->
  exists queries obj_vals responses,
    generate_initial_data n b d obj_func "noiseless" noise_level (Some seed) g1
    = (Ok (queries, obj_vals, responses), g1)
    /\ generate_initial_data n b d obj_func "noiseless" noise_level
         (Some seed) g2
       = (Ok (queries, obj_vals, responses), g2)
    /\ shape queries = [Z.to_nat n; Z.to_nat b; Z.to_nat d]
    /\ shape obj_vals = [Z.to_nat n; Z.to_nat b]
    /\ shape responses = [Z.to_nat n]
    /\ forall i, i < Z.to_nat n ->
       exists k, nth_error (data responses) i = Some (Z.of_nat k)
                 /\ k < Z.to_nat b
                 /\ first_greatest
                      (map (fun j => g0 (block (Z.to_nat d)
                                           (i * Z.to_nat b + j)
                                           (data queries)))
                         (range (Z.to_nat b))) k.
Proof.
  intros Hn Hb Hd Ha Hs Hobj.
  set (N := Z.to_nat n). set (B := Z.to_nat b). set (Dm := Z.to_nat d).
  set (Q := mkTensor [N; B; Dm]
              (fst (draw (N * (B * (Dm * 1))) (seed_state seed))) false).
  set (Q2 := mkTensor [N * B; Dm] (data Q) (requires_grad Q)).
  destruct (Hobj Q2 (N * B) eq_refl) as (v & Hv & Hvshape & Hvdata).
  set (V := mkTensor [N; B] (data v) (requires_grad v)).
  set (R := mkTensor [N]
              (map (fun k => Z.of_nat (argmax_list (block B k (data v))))
                 (range N)) false).
  assert (HB : B <> 0) by (unfold B; lia).
  assert (HV : forall g, get_obj_vals_effectful Q obj_func g = (Ok V, g)).
  { intros g. unfold get_obj_vals_effectful. cbn [shape Q].
    assert (Hre : reshape Q [N * B; Dm] = Ok Q2).
    { unfold reshape, Q2. cbn [numel fold_right shape data requires_grad Q].
      now rewrite (proj2 (Nat.eqb_eq (N * B * (Dm * 1))
                            (N * (B * (Dm * 1))))) by lia. }
    rewrite (bind_ok _ _ g g Q2) by (unfold lift; now rewrite Hre).
    rewrite (bind_ok _ _ g g v (Hv g)).
    assert (Hre2 : reshape v [N; B] = Ok V).
    { unfold reshape, V. rewrite Hvshape. cbn [numel fold_right].
      now rewrite (proj2 (Nat.eqb_eq (N * (B * 1)) (N * B * 1))) by lia. }
    unfold lift. now rewrite Hre2. }
  assert (HR : forall g, generate_responses V "noiseless" noise_level g
                         = (Ok R, g)).
  { intros g. unfold generate_responses, corrupt_obj_vals. simpl.
    unfold lift, torch_argmax. simpl.
    rewrite (proj2 (Nat.eqb_neq B 0) HB). unfold R.
    now rewrite Nat.mul_1_r. }
  assert (Hrun : forall g,
             generate_initial_data n b d obj_func "noiseless" noise_level
               (Some seed) g = (Ok (Q, V, R), g)).
  { intros g. unfold generate_initial_data.
    rewrite (bind_ok _ _ g g Q)
      by (apply seeded_call_restores; trivial; lia).
    rewrite (bind_ok _ _ g g V (HV g)).
    now rewrite (bind_ok _ _ g g R (HR g)). }
  exists Q, V, R. repeat split; try apply Hrun.
  intros i Hi. exists (argmax_list (block B i (data v))).
  assert (Hrow : block B i (data v)
                 = map (fun j => g0 (block Dm (i * B + j) (data Q)))
                     (range B)).
  { rewrite Hvdata. simpl. now rewrite block_map_range. }
  assert (Hne : block B i (data v) <> []).
  { rewrite Hrow. unfold range. destruct B; [lia | discriminate]. }
  split; [|split].
  - simpl. now rewrite nth_error_map_range.
  - pose proof (argmax_list_lt _ Hne) as Hlt. revert Hlt.
    rewrite Hrow at 2. unfold range. now rewrite length_map, length_seq.
  - rewrite <- Hrow. apply (argmax_list_first_greatest _ Hne).
Qed.

Lemma initial_data_noiseless_seeded_witness :
  exists queries obj_vals responses,
    generate_initial_data 2 3 1 (pure_objective sum_squares_objective)
      "noiseless" 0%Z (Some 42%Z) (gen_at 7)
    = (Ok (queries, obj_vals, responses), gen_at 7)
    /\ generate_initial_data 2 3 1 (pure_objective sum_squares_objective)
         "noiseless" 0%Z (Some 42%Z) (gen_at 1000)
       = (Ok (queries, obj_vals, responses), gen_at 1000)
    /\ shape queries = [Z.to_nat 2; Z.to_nat 3; Z.to_nat 1]
    /\ shape obj_vals = [Z.to_nat 2; Z.to_nat 3]
    /\ shape responses = [Z.to_nat 2]
    /\ forall i, i < Z.to_nat 2 ->
       exists k, nth_error (data responses) i = Some (Z.of_nat k)
                 /\ k < Z.to_nat 3
                 /\ first_greatest
                      (map (fun j => sum_squares
                                       (block (Z.to_nat 1)
                                          (i * Z.to_nat 3 + j)
                                          (data queries)))
                         (range (Z.to_nat 3))) k.
Proof.
  apply (initial_data_noiseless_seeded 2 3 1 42
           (pure_objective sum_squares_objective)
           sum_squares 0%Z (gen_at 7) (gen_at 1000)).
  - lia.
  - lia.
  - lia.
  - reflexivity.
  - unfold seed_in_range. lia.
  - intros t m Ht. exists (per_point sum_squares m 1 t).
    unfold pure_objective, lift, sum_squares_objective. rewrite Ht.
    repeat split.
Defined.

(** An unrecognized noise type makes [generate_initial_data] fail only
    after the queries were drawn and the objective evaluated: without a seed,
    for non-negative sizes of a batch that [torch.rand] can allocate and an
    objective that succeeds on the queries drawn, the call raises and leaves
    the global generator where the objective left it, past the
    num_queries * batch_size * input_dim draws of the queries. *)
Theorem initial_data_unrecognized_noise {elt : Type} {F : Float elt}
  {G : Generator elt} {D : Distributions elt} (n b d : Z)
  (obj_func : tensor elt -> M gen_state (tensor elt)) (noise_type : string)
  (noise_level : elt) (g g1 : gen_state) (obj_vals : tensor elt) :
  noise_type <> "noiseless" -> noise_type <> "probit" ->
  noise_type <> "logit" ->
  (0 <= n)%Z -> (0 <= b)%Z -> (0 <= d)%Z ->
  allocatable [n; b; d] = true ->
  get_obj_vals_effectful
    (mkTensor [Z.to_nat n; Z.to_nat b; Z.to_nat d]
       (fst (draw (Z.to_nat n * (Z.to_nat b * (Z.to_nat d * 1))) g)) false)
    obj_func (snd (draw (Z.to_nat n * (Z.to_nat b * (Z.to_nat d * 1))) g))
  = (Ok obj_vals, g1) ->
  generate_initial_data n b d obj_func noise_type noise_level None g
  = (Err (UnboundLocalError "corrupted_obj_vals"), g1).
Proof.
  intros H1 H2 H3 Hn Hb Hd Ha Hv.
  apply String.eqb_neq in H1, H2, H3.
  unfold generate_initial_data.
  erewrite bind_ok by (apply unseeded_call_draws; trivial).
  erewrite bind_ok by exact Hv.
  unfold generate_responses, corrupt_obj_vals. simpl.
  now rewrite H1, H2, H3.
Qed.

Lemma initial_data_unrecognized_noise_witness :
  generate_initial_data 1 2 1 noisy_objective "uniform" 1%Z None (gen_at 7)
  = (Err (UnboundLocalError "corrupted_obj_vals"), gen_after 1486001571 4).
Proof.
  apply (initial_data_unrecognized_noise 1 2 1 noisy_objective
           "uniform" 1%Z (gen_at 7) (gen_after 1486001571 4)
           (mkTensor [1; 2] [382; 14394]%Z false)); try discriminate; try lia.
  - reflexivity.
  - vm_compute. reflexivity.
Defined.

(** ** Candidate optimizer: what is printed and what is returned *)

Section SortFacts.

Context {elt : Type} {F : Float elt}.

Lemma insert_desc_perm (x : elt * nat) (l : list (elt * nat)) :
  Permutation (insert_desc x l) (x :: l).
Proof.
  induction l as [|y l IH]; simpl; trivial.
  destruct (float_ltb (fst x) (fst y)); trivial.
  rewrite IH. apply perm_swap.
Qed.

Lemma insert_desc_sorted (x : elt * nat) (l : list (elt * nat)) :
  StronglySorted (fun p q => float_ltb (fst p) (fst q) = false) l ->
  StronglySorted (fun p q => float_ltb (fst p) (fst q) = false)
    (insert_desc x l).
Proof.
  intros Hs. induction Hs as [|y l Hs IH Hy]; simpl.
  - repeat constructor.
  - destruct (float_ltb (fst x) (fst y)) eqn:Hxy.
    + constructor; trivial. apply insert_desc_Forall; trivial.
      now apply float_ltb_asym.
    + constructor; [now constructor|]. constructor; trivial.
      revert Hy. apply Forall_impl. intros z Hyz.
      destruct (float_ltb (fst x) (fst z)) eqn:Hxz; trivial.
      destruct (float_ltb_cotrans _ _ (fst y) Hxz) as [H|H]; congruence.
Qed.

Lemma map_fst_combine_seq (l : list elt) (a : nat) :
  map fst (combine l (seq a (length l))) = l.
Proof.
  revert a. induction l as [|x l IH]; intros a; simpl; trivial.
  now rewrite IH.
Qed.

Lemma fold_insert_desc_perm (ps : list (elt * nat)) :
  Permutation (map fst (fold_right insert_desc [] ps)) (map fst ps).
Proof.
  induction ps as [|p ps IH]; [apply perm_nil|].
  change (fold_right insert_desc [] (p :: ps))
    with (insert_desc p (fold_right insert_desc [] ps)).
  etransitivity; [apply Permutation_map, insert_desc_perm|].
  cbn [map]. now constructor.
Qed.

Lemma sort_desc_perm (l : list elt) :
  Permutation (map fst (sort_desc l)) l.
Proof.
  unfold sort_desc. etransitivity; [apply fold_insert_desc_perm|].
  now rewrite map_fst_combine_seq.
Qed.

Lemma sort_desc_sorted (l : list elt) :
  StronglySorted (fun x y => float_ltb x y = false) (map fst (sort_desc l)).
Proof.
  assert (Hs : StronglySorted
                 (fun p q : elt * nat => float_ltb (fst p) (fst q) = false)
                 (sort_desc l)).
  { unfold sort_desc. generalize (combine l (seq 0 (length l))) as ps.
    induction ps as [|p ps IH]; [constructor|].
    change (fold_right insert_desc [] (p :: ps))
      with (insert_desc p (fold_right insert_desc [] ps)).
    now apply insert_desc_sorted. }
  induction Hs as [|p ps Hs IH Hp]; simpl; constructor; trivial.
  apply Forall_map. exact Hp.
Qed.

(** Sorting a vector of [n] entries, squeezed or not, sorts its entries. *)
Lemma torch_sort_desc_vector (t : tensor elt) (n : nat) :
  shape t = [n] \/ shape t = [] ->
  length (data t) = n ->
  data (fst (torch_sort_desc t)) = map fst (sort_desc (data t)).
Proof.
  intros Hshape Hlen. subst n.
  unfold torch_sort_desc. destruct Hshape as [-> | ->]; simpl.
  - unfold block. simpl. now rewrite firstn_all, app_nil_r.
  - now rewrite app_nil_r.
Qed.

End SortFacts.

Section SuggestedQuery.

Context {elt : Type} {F : Float elt} {O : Optimizer elt}.

(** The run of the function on an optimizer result of [n] restarts. *)
Lemma suggested_query_run (acq_func : acqf_t) (bounds : tensor elt)
  (batch_size : Z) (batch_limit init_batch_limit : option Z)
  (w w1 : world optimizer_state elt) (candidates acq_values : tensor elt)
  (b0 d n : nat) (tl inner : list nat) :
  shape bounds = b0 :: d :: tl ->
  optimize_acqf
    (mkArgs acq_func bounds batch_size (4 * d) (120 * d)
       (mkOptions batch_limit init_batch_limit 100 false "L-BFGS-B") false) w
  = (Ok (candidates, acq_values), w1) ->
  shape candidates = n :: inner ->
  shape acq_values = [n] -> tensor_wf acq_values -> 1 <= n ->
  optimize_acqf_and_get_suggested_query acq_func bounds batch_size
    batch_limit init_batch_limit w
  = (Ok (slab (detach candidates) inner (argmax_list (data acq_values))),
     mkWorld (lib_state w1)
       (stdout w1 ++
        [PStr "Acquisition values:";
         PTensor (fst (torch_sort_desc (squeeze acq_values)));
         PStr "Candidates:";
         PTensor
           (squeeze
              (mkTensor
                 (shape (snd (torch_sort_desc (squeeze acq_values))) ++ inner)
                 (flat_map
                    (fun k => block (numel inner) (Z.to_nat k)
                                (data candidates))
                    (data (snd (torch_sort_desc (squeeze acq_values)))))
                 false));
         PTensor (squeeze (detach candidates))])).
Proof.
  intros Hb Hopt Hc Hv Hvw Hn.
  destruct (get_best_candidates_slab (detach candidates) acq_values n inner
              Hc Hv Hvw Hn) as (Hbest & _ & _).
  assert (Hidx : Forall (fun k => (0 <= k < Z.of_nat n)%Z)
                   (data (snd (torch_sort_desc (squeeze acq_values))))).
  { apply torch_sort_desc_indices.
    - unfold squeeze. rewrite Hv. cbn [shape filter].
      destruct (negb (n =? 1)); auto.
    - unfold tensor_wf in Hvw. rewrite Hv in Hvw. simpl in *. lia. }
  unfold optimize_acqf_and_get_suggested_query. rewrite Hb.
  rewrite (bind_ok _ _ w w1 (candidates, acq_values) Hopt).
  destruct (torch_sort_desc (squeeze acq_values)) as [sorted indices].
  cbn [snd fst] in *.
  rewrite (index_select0_in_range (detach candidates) indices n inner Hc Hidx).
  unfold print, lift. cbn [bind ret Monad_M lib_state stdout]. rewrite Hbest.
  cbn [data detach requires_grad]. now rewrite <- !app_assoc.
Qed.

End SuggestedQuery.

(** Whatever number of restart results the optimizer returns, at least one
    (it need not be the 4 * input_dim asked for), and whatever the shape of a
    candidate, the function returns the candidate of the first greatest
    value, detached; before that it has printed the restart values
    rearranged in descending order and, as its last line, all the
    candidates. *)
Theorem suggested_query_report {elt : Type} {F : Float elt}
  {O : Optimizer elt} (acq_func : acqf_t) (bounds : tensor elt)
  (batch_size : Z) (batch_limit init_batch_limit : option Z)
  (w w1 : world optimizer_state elt) (candidates acq_values : tensor elt)
  (b0 d n : nat) (tl inner : list nat) :
  shape bounds = b0 :: d :: tl ->
  optimize_acqf
    (mkArgs acq_func bounds batch_size (4 * d) (120 * d)
       (mkOptions batch_limit init_batch_limit 100 false "L-BFGS-B") false) w
  = (Ok (candidates, acq_values), w1) ->
  shape candidates = n :: inner ->
  shape acq_values = [n] -> tensor_wf acq_values -> 1 <= n ->
  exists new_x w2 best sorted,
    optimize_acqf_and_get_suggested_query acq_func bounds batch_size
      batch_limit init_batch_limit w = (Ok new_x, w2)
    /\ shape new_x = inner /\ requires_grad new_x = false
    /\ data new_x = block (numel inner) best (data candidates)
    /\ best < n /\ first_greatest (data acq_values) best
    /\ nth_error (stdout w2) (length (stdout w1) + 1) = Some (PTensor sorted)
    /\ Permutation (data sorted) (data acq_values)
    /\ StronglySorted (fun x y => float_ltb x y = false) (data sorted)
    /\ nth_error (stdout w2) (length (stdout w1) + 4)
       = Some (PTensor (squeeze (detach candidates)))
    /\ length (stdout w2) = length (stdout w1) + 5.
Proof.
  intros Hb Hopt Hc Hv Hvw Hn.
  destruct (get_best_candidates_slab (detach candidates) acq_values n inner
              Hc Hv Hvw Hn) as (_ & Hlt & Hfirst).
  assert (Hsorted : data (fst (torch_sort_desc (squeeze acq_values)))
                    = map fst (sort_desc (data acq_values))).
  { apply (torch_sort_desc_vector (squeeze acq_values) n).
    - unfold squeeze. rewrite Hv. cbn [shape filter].
      destruct (negb (n =? 1)); auto.
    - unfold tensor_wf in Hvw. rewrite Hv in Hvw. simpl in *. lia. }
  do 2 eexists. exists (argmax_list (data acq_values)).
  exists (fst (torch_sort_desc (squeeze acq_values))).
  split.
  { apply (suggested_query_run acq_func bounds batch_size batch_limit
             init_batch_limit w w1 candidates acq_values b0 d n tl inner);
      trivial. }
  cbn [stdout].
  split; [reflexivity|]. split; [reflexivity|]. split; [reflexivity|].
  split; [exact Hlt|]. split; [exact Hfirst|].
  split.
  { now rewrite nth_error_app2, Nat.add_comm, Nat.add_sub by lia. }
  split; [rewrite Hsorted; apply sort_desc_perm|].
  split; [rewrite Hsorted; apply sort_desc_sorted|].
  split.
  { now rewrite nth_error_app2, Nat.add_comm, Nat.add_sub by lia. }
  rewrite length_app. reflexivity.
Qed.

Lemma suggested_query_report_witness :
  exists new_x w2 best sorted,
    optimize_acqf_and_get_suggested_query constant_acqf bounds_0_10 2
      (Some 4%Z) (Some 20%Z) quiet = (Ok new_x, w2)
    /\ shape new_x = [2; 1] /\ requires_grad new_x = false
    /\ data new_x = block (numel [2; 1]) best [0; 0; 1; 1; 2; 2; 3; 3]%Z
    /\ best < 4 /\ first_greatest [0; 3; 2; 1]%Z best
    /\ nth_error (stdout w2) (length (stdout called) + 1)
       = Some (PTensor sorted)
    /\ Permutation (data sorted) [0; 3; 2; 1]%Z
    /\ StronglySorted (fun x y => float_ltb x y = false) (data sorted)
    /\ nth_error (stdout w2) (length (stdout called) + 4)
       = Some (PTensor
                 (squeeze
                    (detach (mkTensor [4; 2; 1]
                               [0; 0; 1; 1; 2; 2; 3; 3]%Z true))))
    /\ length (stdout w2) = length (stdout called) + 5.
Proof.
  apply (suggested_query_report constant_acqf bounds_0_10 2 (Some 4%Z)
           (Some 20%Z) quiet called
           (mkTensor [4; 2; 1] [0; 0; 1; 1; 2; 2; 3; 3]%Z true)
           (mkTensor [4] [0; 3; 2; 1]%Z true) 2 1 4 [] [2; 1]).
  - reflexivity.
  - reflexivity.
  - reflexivity.
  - reflexivity.
  - reflexivity.
  - lia.
Defined.

(** When the optimizer returns no restart value, as it must when asked for
    the zero restarts of a design space of dimension zero, the function
    raises instead of returning a batch; nothing but the output has changed
    since the optimizer's call. *)
Theorem suggested_query_no_values {elt : Type} {F : Float elt}
  {O : Optimizer elt} (acq_func : acqf_t) (bounds : tensor elt)
  (batch_size : Z) (batch_limit init_batch_limit : option Z)
  (w w1 : world optimizer_state elt) (candidates acq_values : tensor elt)
  (b0 d : nat) (tl : list nat) :
  shape bounds = b0 :: d :: tl ->
  optimize_acqf
    (mkArgs acq_func bounds batch_size (4 * d) (120 * d)
       (mkOptions batch_limit init_batch_limit 100 false "L-BFGS-B") false) w
  = (Ok (candidates, acq_values), w1) ->
  numel (shape acq_values) = 0 ->
  exists e w2,
    optimize_acqf_and_get_suggested_query acq_func bounds batch_size
      batch_limit init_batch_limit w = (Err e, w2)
    /\ lib_state w2 = lib_state w1.
Proof.
  intros Hb Hopt Hzero.
  unfold optimize_acqf_and_get_suggested_query. rewrite Hb.
  rewrite (bind_ok _ _ w w1 (candidates, acq_values) Hopt).
  destruct (torch_sort_desc (squeeze acq_values)) as [sorted indices].
  unfold print, lift. cbn [bind ret Monad_M lib_state stdout].
  destruct (index_select0 (detach candidates) indices) as [picked|e].
  - cbn [lib_state stdout].
    unfold get_best_candidates, torch_argmax. rewrite Hzero. simpl.
    do 2 eexists. split; reflexivity.
  - do 2 eexists. split; reflexivity.
Qed.

Lemma suggested_query_no_values_witness :
  exists e w2,
    optimize_acqf_and_get_suggested_query constant_acqf
      (mkTensor [2; 0] (@nil Z) false) 2 (Some 4%Z) (Some 20%Z) quiet
    = (Err e, w2)
    /\ lib_state w2 = lib_state (mkWorld [(0, 0, false)] (@nil (printed Z))).
Proof.
  apply (suggested_query_no_values constant_acqf
           (mkTensor [2; 0] (@nil Z) false) 2 (Some 4%Z) (Some 20%Z) quiet
           (mkWorld [(0, 0, false)] [])
           (mkTensor [0; 2; 0] [] true) (mkTensor [0] [] true) 2 0 []).
  - reflexivity.
  - reflexivity.
  - reflexivity.
Defined.

(** ** Model fitter: a batch the encoder rejects *)

(** With model type "pairwise_gp" and a recognized likelihood, an exception
    of the encoder comes out of [fit_model] unchanged: the likelihood object
    has been constructed by then, the state is the one its constructor
    left, and neither the model nor the marginal likelihood is built. *)
Theorem fit_model_encoder_failure {elt : Type} {F : Float elt}
  {L : ModelLibrary elt} (queries : tensor elt) (responses : list Z)
  (likelihood : string) (f : likelihood_t) (s s1 : fit_state) (e : exn) :
  (likelihood = "probit" /\ PairwiseProbitLikelihood s = (Ok f, s1))
  \/ (likelihood = "logit" /\ PairwiseLogitLikelihood s = (Ok f, s1)) ->
  training_data_for_pairwise_gp queries responses = Err e ->
  fit_model queries responses "pairwise_gp" (Some likelihood) s
  = (Err e, s1).
Proof.
  intros [[-> Hlik] | [-> Hlik]] Henc; unfold fit_model; simpl;
    rewrite Hlik; unfold lift; now rewrite Henc.
Qed.

Lemma fit_model_encoder_failure_witness :
  fit_model queries_1x1 [0%Z] "pairwise_gp" (Some "probit") no_calls
  = (Err RuntimeError, probit_constructed).
Proof.
  apply (fit_model_encoder_failure queries_1x1 [0%Z] "probit" probit_link
           no_calls probit_constructed RuntimeError).
  - left. split; reflexivity.
  - reflexivity.
Defined.

(** ** Evaluator, simulator and encoder together *)

Lemma nth_error_map_range_inv {A : Type} (f : nat -> A) (n k : nat) (x : A) :
  nth_error (map f (range n)) k = Some x -> x = f k.
Proof.
  intros H. destruct (Nat.lt_ge_cases k n) as [Hk|Hk].
  - rewrite nth_error_map_range in H by trivial. congruence.
  - assert (Hnone : nth_error (map f (range n)) k = None).
    { apply nth_error_None. unfold range. now rewrite length_map, length_seq. }
    congruence.
Qed.

(** Objective values of a per-point objective [g0], noiseless responses
    from them and the encoding of the batch with these responses: in every
    comparison returned, [g0] at the winner's row of datapoints is not
    smaller than [g0] at the loser's row. *)
Theorem pipeline_winners_preferred {elt : Type} {F : Float elt}
  {G : Generator elt} {D : Distributions elt} (queries : tensor elt)
  (obj_func : tensor elt -> result (tensor elt)) (g0 : list elt -> elt)
  (noise_level : elt) (g : gen_state) (N B d : nat) :
  shape queries = [N; B; d] -> tensor_wf queries ->
  1 <= N -> 2 <= B ->
  (forall t m, shape t = [m; d] ->
     exists v, obj_func t = Ok v /\ shape v = [m]
               /\ data v = map (fun k => g0 (block d k (data t))) (range m)) ->
  exists obj_vals responses datapoints comparisons,
    get_obj_vals queries obj_func = Ok obj_vals
    /\ generate_responses obj_vals "noiseless" noise_level g
       = (Ok responses, g)
    /\ training_data_for_pairwise_gp queries (data responses)
       = Ok (datapoints, comparisons)
    /\ data comparisons
       = pair_rows (comparison_pairs N B (data responses))
    /\ Forall (fun p =>
                 float_ltb
                   (g0 (block d (Z.to_nat (fst p)) (data datapoints)))
                   (g0 (block d (Z.to_nat (snd p)) (data datapoints)))
                 = false)
         (comparison_pairs N B (data responses)).
Proof.
  intros Hq Hqwf HN HB Hobj.
  destruct (Hobj (mkTensor [N * B; d] (data queries) (requires_grad queries))
              (N * B) eq_refl) as (v & Hv & Hvshape & Hvdata).
  simpl in Hvdata.
  set (R := map (fun k => Z.of_nat (argmax_list (block B k (data v))))
              (range N)).
  assert (HRlen : length R = N)
    by (unfold R, range; now rewrite length_map, length_seq).
  destruct (encoder_run queries R N B d [] Hq Hqwf HN HB ltac:(lia))
    as [rg Hrun].
  exists (mkTensor [N; B] (data v) (requires_grad v)).
  exists (mkTensor [N] R false). do 2 eexists.
  split; [|split; [|split; [exact Hrun|split; [reflexivity|]]]].
  - rewrite (get_obj_vals_run queries obj_func N B d Hq), Hv, Hvshape.
    simpl. now rewrite Nat.mul_1_r, Nat.eqb_refl.
  - unfold generate_responses, corrupt_obj_vals. simpl.
    unfold lift, torch_argmax. simpl.
    replace (B =? 0) with false by (symmetry; apply Nat.eqb_neq; lia).
    now rewrite Nat.mul_1_r.
  - cbn [data].
    assert (Hvals : length (data v) = N * B).
    { rewrite Hvdata. unfold range. now rewrite length_map, length_seq. }
    generalize (argmax_pairs_not_smaller (data v) N B Hvals ltac:(lia)).
    fold R. apply Forall_impl. intros p (x & y & Hx & Hy & Hxy).
    rewrite Hvdata in Hx, Hy.
    apply nth_error_map_range_inv in Hx, Hy. now subst x y.
Qed.

Lemma pipeline_winners_preferred_witness :
  exists obj_vals responses datapoints comparisons,
    get_obj_vals queries_2x3 sum_squares_objective = Ok obj_vals
    /\ generate_responses obj_vals "noiseless" 0%Z (gen_at 7)
       = (Ok responses, gen_at 7)
    /\ training_data_for_pairwise_gp queries_2x3 (data responses)
       = Ok (datapoints, comparisons)
    /\ data comparisons
       = pair_rows (comparison_pairs 2 3 (data responses))
    /\ Forall (fun p =>
                 float_ltb
                   (sum_squares (block 1 (Z.to_nat (fst p)) (data datapoints)))
                   (sum_squares (block 1 (Z.to_nat (snd p)) (data datapoints)))
                 = false)
         (comparison_pairs 2 3 (data responses)).
Proof.
  apply (pipeline_winners_preferred queries_2x3 sum_squares_objective
           sum_squares 0%Z (gen_at 7) 2 3 1).
  - reflexivity.
  - reflexivity.
  - lia.
  - lia.
  - intros t m Ht. exists (per_point sum_squares m 1 t).
    unfold sum_squares_objective. rewrite Ht. repeat split.
Defined.

(** ** Comparison-data encoder: nothing is lost *)

Lemma pair_rows_inj (ps qs : list (Z * Z)) :
  pair_rows ps = pair_rows qs -> ps = qs.
Proof.
  revert qs. induction ps as [|[a b] ps IH]; intros [|[c e] qs] H;
    simpl in H; try discriminate; trivial.
  injection H as -> -> H. f_equal. now apply IH.
Qed.

Lemma comparison_pairs_succ (N B : nat) (responses : list Z) :
  comparison_pairs (S N) B responses
  = comparison_pairs N B responses ++ query_pairs B N (nth N responses 0%Z).
Proof.
  unfold comparison_pairs, range.
  rewrite seq_S, flat_map_app. simpl. now rewrite app_nil_r.
Qed.

(** The first pair of query [i] sits at position [i * (B - 1)] and names
    the response of the query. *)
Lemma comparison_pairs_winner (B : nat) (responses : list Z) (N i : nat) :
  2 <= B -> N <= length responses ->
  Forall (fun r => (0 <= r < Z.of_nat B)%Z) responses ->
  i < N ->
  exists p, nth_error (comparison_pairs N B responses) (i * (B - 1)) = Some p
            /\ fst p = (Z.of_nat (i * B) + nth i responses 0)%Z.
Proof.
  intros HB Hlen Hall. induction N as [|N IH]; intros Hi; [lia|].
  rewrite comparison_pairs_succ.
  pose proof (length_comparison_pairs N B responses ltac:(lia) Hall) as HlN.
  destruct (Nat.eq_dec i N) as [->|Hne].
  - rewrite nth_error_app2 by lia. rewrite HlN, Nat.sub_diag.
    assert (Hr : (0 <= nth N responses 0 < Z.of_nat B)%Z).
    { rewrite Forall_forall in Hall. apply Hall, nth_In. lia. }
    pose proof (length_query_pairs B N (nth N responses 0%Z) Hr) as Hlq.
    destruct (query_pairs B N (nth N responses 0%Z)) as [|p ps] eqn:E;
      [simpl in Hlq; lia|].
    exists p. split; trivial.
    assert (Hin : In p (query_pairs B N (nth N responses 0%Z)))
      by (rewrite E; now left).
    unfold query_pairs in Hin. apply in_map_iff in Hin.
    now destruct Hin as (j & <- & _).
  - destruct (IH ltac:(lia) ltac:(lia)) as (p & Hp & Hfst).
    exists p. split; trivial.
    rewrite nth_error_app1; trivial. rewrite HlN. nia.
Qed.

(** On batches of one shape with valid responses the encoder is injective:
    two inputs with the same result have the same points and the same
    responses, so the result still tells which item won each query. *)
Theorem encoder_keeps_responses {elt : Type} (q1 q2 : tensor elt)
  (r1 r2 : list Z) (N B d : nat) :
  shape q1 = [N; B; d] -> tensor_wf q1 ->
  shape q2 = [N; B; d] -> tensor_wf q2 ->
  1 <= N -> 2 <= B ->
  length r1 = N -> Forall (fun r => (0 <= r < Z.of_nat B)%Z) r1 ->
  length r2 = N -> Forall (fun r => (0 <= r < Z.of_nat B)%Z) r2 ->
  training_data_for_pairwise_gp q1 r1 = training_data_for_pairwise_gp q2 r2 ->
  data q1 = data q2 /\ r1 = r2.
Proof.
  intros Hs1 Hw1 Hs2 Hw2 HN HB Hl1 Ha1 Hl2 Ha2 Heq.
  destruct (encoder_run q1 r1 N B d [] Hs1 Hw1 HN HB ltac:(lia)) as [rg1 H1].
  destruct (encoder_run q2 r2 N B d [] Hs2 Hw2 HN HB ltac:(lia)) as [rg2 H2].
  rewrite H1, H2 in Heq. injection Heq as Hdata _ _ Hrows.
  split; trivial.
  apply pair_rows_inj in Hrows.
  apply (nth_ext r1 r2 0%Z 0%Z); [lia|]. intros i Hi.
  destruct (comparison_pairs_winner B r1 N i HB ltac:(lia) Ha1 ltac:(lia))
    as (p1 & Hp1 & Hf1).
  destruct (comparison_pairs_winner B r2 N i HB ltac:(lia) Ha2 ltac:(lia))
    as (p2 & Hp2 & Hf2).
  rewrite Hrows in Hp1. rewrite Hp1 in Hp2. injection Hp2 as <-. lia.
Qed.

Lemma encoder_keeps_responses_witness :
  data queries_2x3 = data queries_2x3 /\ [1; 0]%Z = [1; 0]%Z.
Proof.
  apply (encoder_keeps_responses queries_2x3 queries_2x3 [1; 0]%Z [1; 0]%Z
           2 3 1); try reflexivity; try lia;
    repeat constructor; simpl; lia.
Defined.
